(** * Verification of the request pipeline of package [rest] (src/rest/net.go)

    A shallow embedding of the caching and connection-reuse code of the
    [rest] package: the freshness evaluator ([setTTL], [setLastModified],
    [setETag]), the header injection of [setParams], the connection pool of
    [connect] and the dispatch pipeline [doRequest].  Go reference types
    (maps, pointers to structs) live in an explicit heap so that aliasing
    between the builder's header map, request headers, cached responses and
    shared transports is visible. *)

From Stdlib Require Import ZArith String Ascii List Bool Lia.
From stdpp Require Import base gmap strings list.

Open Scope Z_scope.

(* ================================================================== *)
(** ** Byte and string helpers (Go strings are byte strings) *)

Module Str.

Definition code (c : ascii) : Z := Z.of_nat (nat_of_ascii c).

Definition isDigit (c : ascii) : bool := (48 <=? code c) && (code c <=? 57).

Definition digitVal (c : ascii) : Z := code c - 48.

(** ASCII lower-casing, as used by the case-insensitive [match] of package
    time. *)
Definition lower (c : ascii) : ascii :=
  if (65 <=? code c) && (code c <=? 90)
  then ascii_of_nat (nat_of_ascii c + 32) else c.

Definition upper (c : ascii) : ascii :=
  if (97 <=? code c) && (code c <=? 122)
  then ascii_of_nat (nat_of_ascii c - 32) else c.

Definition ch (c : ascii) : string := String c EmptyString.

(** Decimal rendering of a non-negative integer, most significant digit
    first. *)
Fixpoint digits_aux (fuel : nat) (n : Z) (acc : string) : string :=
  match fuel with
  | O => acc
  | S f =>
      let d := ascii_of_nat (Z.to_nat (48 + n mod 10)) in
      if n <? 10 then String d acc else digits_aux f (n / 10) (String d acc)
  end.

Definition itoa (n : Z) : string := digits_aux 64 n EmptyString.

(** Left padding with '0' up to [width] characters. *)
Fixpoint pad0 (k : nat) (s : string) : string :=
  match k with O => s | S k' => String "0" (pad0 k' s) end.

Definition padTo (width : nat) (s : string) : string :=
  pad0 (width - String.length s) s.

End Str.

(* ================================================================== *)
(** ** Package time: the parts of [time.Parse] and [Time.Format] used by
    the code.  An instant is a number of nanoseconds since
    1970-01-01T00:00:00 UTC; [time.Parse] without a zone element yields a
    UTC time, so no location is recorded. *)

Module GoTime.

(** Days since 1970-01-01 of a proleptic Gregorian date (month 1..12). *)
Definition days_from_civil (y m d : Z) : Z :=
  let y' := if m <=? 2 then y - 1 else y in
  let era := y' / 400 in
  let yoe := y' - era * 400 in
  let mp := if 2 <? m then m - 3 else m + 9 in
  let doy := (153 * mp + 2) / 5 + d - 1 in
  let doe := yoe * 365 + yoe / 4 - yoe / 100 + doy in
  era * 146097 + doe - 719468.

(** The inverse: (year, month, day) of a day number. *)
Definition civil_from_days (z0 : Z) : Z * Z * Z :=
  let z := z0 + 719468 in
  let era := z / 146097 in
  let doe := z - era * 146097 in
  let yoe := (doe - doe / 1460 + doe / 36524 - doe / 146096) / 365 in
  let y := yoe + era * 400 in
  let doy := doe - (365 * yoe + yoe / 4 - yoe / 100) in
  let mp := (5 * doy + 2) / 153 in
  let d := doy - (153 * mp + 2) / 5 + 1 in
  let m := if mp <? 10 then mp + 3 else mp - 9 in
  (if m <=? 2 then y + 1 else y, m, d).

Definition isLeap (y : Z) : bool :=
  (y mod 4 =? 0) && (negb (y mod 100 =? 0) || (y mod 400 =? 0)).

(** [daysIn(month, year)]. *)
Definition daysIn (m y : Z) : Z :=
  if m =? 2 then (if isLeap y then 29 else 28)
  else if (m =? 4) || (m =? 6) || (m =? 9) || (m =? 11) then 30 else 31.

Definition sec_ns : Z := 1000000000.

(** [time.Date(year, month, day, hour, min, sec, nsec, time.UTC)] for
    in-range fields. *)
Definition date (y mo d h mi s ns : Z) : Z :=
  ((days_from_civil y mo d * 86400) + h * 3600 + mi * 60 + s) * sec_ns + ns.

Definition shortDayNames : list string :=
  ["Sun"; "Mon"; "Tue"; "Wed"; "Thu"; "Fri"; "Sat"]%string.

Definition shortMonthNames : list string :=
  ["Jan"; "Feb"; "Mar"; "Apr"; "May"; "Jun"; "Jul"; "Aug"; "Sep"; "Oct";
   "Nov"; "Dec"]%string.

(** Layout elements ([std*] constants of package time) recognised here:
    those that the layouts of this file are made of. *)
Inductive std :=
| stdWeekDay     (* Mon *)
| stdMonth       (* Jan *)
| stdNumMonth    (* 1 *)
| stdZeroMonth   (* 01 *)
| stdDay         (* 2 *)
| stdZeroDay     (* 02 *)
| stdHour        (* 15 *)
| stdMinute      (* 4 *)
| stdZeroMinute  (* 04 *)
| stdSecond      (* 5 *)
| stdZeroSecond  (* 05 *)
| stdLongYear.   (* 2006 *)

Inductive piece := PLit (c : ascii) | PStd (s : std).

(** [nextStdChunk], one element at a time, for the elements above; every
    other byte is literal text. *)
Fixpoint pieces (l : string) : list piece :=
  match l with
  | EmptyString => []
  | String "M" (String "o" (String "n" r)) => PStd stdWeekDay :: pieces r
  | String "J" (String "a" (String "n" r)) => PStd stdMonth :: pieces r
  | String "0" (String "1" r) => PStd stdZeroMonth :: pieces r
  | String "0" (String "2" r) => PStd stdZeroDay :: pieces r
  | String "0" (String "4" r) => PStd stdZeroMinute :: pieces r
  | String "0" (String "5" r) => PStd stdZeroSecond :: pieces r
  | String "1" (String "5" r) => PStd stdHour :: pieces r
  | String "1" r => PStd stdNumMonth :: pieces r
  | String "2" (String "0" (String "0" (String "6" r))) => PStd stdLongYear :: pieces r
  | String "2" r => PStd stdDay :: pieces r
  | String "4" r => PStd stdMinute :: pieces r
  | String "5" r => PStd stdSecond :: pieces r
  | String c r => PLit c :: pieces r
  end.

Inductive chunk := Lit (s : string) | Elem (s : std).

(** Consecutive literal bytes form one prefix, as [nextStdChunk] returns
    them. *)
Fixpoint group (ps : list piece) : list chunk :=
  match ps with
  | [] => []
  | PStd s :: r => Elem s :: group r
  | PLit c :: r =>
      match group r with
      | Lit t :: r' => Lit (String c t) :: r'
      | g => Lit (Str.ch c) :: g
      end
  end.

Definition chunks (layout : string) : list chunk := group (pieces layout).

Fixpoint cutspace (s : string) : string :=
  match s with String " " r => cutspace r | _ => s end.

(** [skip(value, prefix)]. *)
Fixpoint skip (fuel : nat) (value prefix : string) : option string :=
  match fuel with
  | O => None
  | S f =>
      match prefix with
      | EmptyString => Some value
      | String " " _ =>
          match value with
          | String c _ => if Ascii.eqb c " " then skip f (cutspace value) (cutspace prefix)
                          else None
          | EmptyString => skip f (cutspace value) (cutspace prefix)
          end
      | String p pr =>
          match value with
          | String v vr => if Ascii.eqb v p then skip f vr pr else None
          | EmptyString => None
          end
      end
  end.

(** [getnum(s, fixed)]. *)
Definition getnum (s : string) (fixed : bool) : option (Z * string) :=
  match s with
  | String a r =>
      if Str.isDigit a then
        match r with
        | String b r' =>
            if Str.isDigit b then Some (Str.digitVal a * 10 + Str.digitVal b, r')
            else if fixed then None else Some (Str.digitVal a, r)
        | EmptyString => if fixed then None else Some (Str.digitVal a, r)
        end
      else None
  | EmptyString => None
  end.

(** Case-insensitive prefix test ([match] of package time). *)
Fixpoint prefix_ci (p v : string) : option string :=
  match p, v with
  | EmptyString, _ => Some v
  | String a p', String b v' =>
      if Ascii.eqb (Str.lower a) (Str.lower b) then prefix_ci p' v' else None
  | _, _ => None
  end.

(** [lookup(tab, val)]: index of the first name that prefixes [val]. *)
Fixpoint lookup_name (i : Z) (tab : list string) (v : string) : option (Z * string) :=
  match tab with
  | [] => None
  | n :: tab' =>
      match prefix_ci n v with
      | Some rest => Some (i, rest)
      | None => lookup_name (i + 1) tab' v
      end
  end.

(** [atoi] on exactly four bytes, the year of [stdLongYear]. *)
Definition atoi4 (s : string) : option Z :=
  match s with
  | String a (String b (String c (String d EmptyString))) =>
      if Str.isDigit a && Str.isDigit b && Str.isDigit c && Str.isDigit d
      then Some (Str.digitVal a * 1000 + Str.digitVal b * 100
                 + Str.digitVal c * 10 + Str.digitVal d)
      else None
  | _ => None
  end.

(** The fields [time.Parse] accumulates; [-1] marks an unset month or day. *)
Record fields := mkFields {
  f_year : Z; f_month : Z; f_day : Z; f_hour : Z; f_min : Z; f_sec : Z; f_nsec : Z }.

Definition init_fields : fields := mkFields 0 (-1) (-1) 0 0 0 0.

Definition set_year f v := mkFields v f.(f_month) f.(f_day) f.(f_hour) f.(f_min) f.(f_sec) f.(f_nsec).
Definition set_month f v := mkFields f.(f_year) v f.(f_day) f.(f_hour) f.(f_min) f.(f_sec) f.(f_nsec).
Definition set_day f v := mkFields f.(f_year) f.(f_month) v f.(f_hour) f.(f_min) f.(f_sec) f.(f_nsec).
Definition set_hour f v := mkFields f.(f_year) f.(f_month) f.(f_day) v f.(f_min) f.(f_sec) f.(f_nsec).
Definition set_min f v := mkFields f.(f_year) f.(f_month) f.(f_day) f.(f_hour) v f.(f_sec) f.(f_nsec).
Definition set_sec f v := mkFields f.(f_year) f.(f_month) f.(f_day) f.(f_hour) f.(f_min) v f.(f_nsec).
Definition set_nsec f v := mkFields f.(f_year) f.(f_month) f.(f_day) f.(f_hour) f.(f_min) f.(f_sec) v.

(** Leading decimal digits of a string. *)
Fixpoint span_digits (s : string) : string * string :=
  match s with
  | String c r =>
      if Str.isDigit c then let '(d, rest) := span_digits r in (String c d, rest)
      else (EmptyString, s)
  | EmptyString => (EmptyString, EmptyString)
  end.

Fixpoint digits_value (acc : Z) (s : string) : Z :=
  match s with
  | String c r => digits_value (acc * 10 + Str.digitVal c) r
  | EmptyString => acc
  end.

(** [parseNanoseconds]: at most nine fraction digits count, scaled to
    nanoseconds. *)
Definition frac_nanos (ds : string) : Z :=
  let d := String.substring 0 9 ds in
  digits_value 0 d * 10 ^ (9 - Z.of_nat (String.length d)).

(** The fractional-second extension of a seconds element: a '.' or ','
    followed by a digit, when the layout has no fraction element (none of
    the layouts here has one). *)
Definition frac_after_seconds (f : fields) (v : string) : fields * string :=
  match v with
  | String sep (String d r) =>
      if (Ascii.eqb sep "." || Ascii.eqb sep ",") && Str.isDigit d then
        let '(ds, rest) := span_digits (String d r) in (set_nsec f (frac_nanos ds), rest)
      else (f, v)
  | _ => (f, v)
  end.

(** One element of the parse loop: [None] is a parse error (a range error
    included). *)
Definition parse_std (s : std) (f : fields) (v : string) : option (fields * string) :=
  match s with
  | stdWeekDay =>
      match lookup_name 0 shortDayNames v with
      | Some (_, r) => Some (f, r) | None => None end
  | stdMonth =>
      match lookup_name 0 shortMonthNames v with
      | Some (i, r) => Some (set_month f (i + 1), r) | None => None end
  | stdNumMonth | stdZeroMonth =>
      match getnum v (match s with stdZeroMonth => true | _ => false end) with
      | Some (m, r) => if (m <=? 0) || (12 <? m) then None else Some (set_month f m, r)
      | None => None end
  | stdDay | stdZeroDay =>
      match getnum v (match s with stdZeroDay => true | _ => false end) with
      | Some (d, r) => Some (set_day f d, r) | None => None end
  | stdHour =>
      match getnum v false with
      | Some (h, r) => if (h <? 0) || (24 <=? h) then None else Some (set_hour f h, r)
      | None => None end
  | stdMinute | stdZeroMinute =>
      match getnum v (match s with stdZeroMinute => true | _ => false end) with
      | Some (m, r) => if (m <? 0) || (60 <=? m) then None else Some (set_min f m, r)
      | None => None end
  | stdSecond | stdZeroSecond =>
      match getnum v (match s with stdZeroSecond => true | _ => false end) with
      | Some (x, r) =>
          if (x <? 0) || (60 <=? x) then None
          else Some (frac_after_seconds (set_sec f x) r)
      | None => None end
  | stdLongYear =>
      match v with
      | String a _ =>
          if Str.isDigit a then
            match atoi4 (String.substring 0 4 v) with
            | Some y => if (String.length v <? 4)%nat then None
                        else Some (set_year f y, String.substring 4 (String.length v - 4) v)
            | None => None
            end
          else None
      | EmptyString => None
      end
  end.

Fixpoint parse_chunks (cs : list chunk) (f : fields) (v : string) : option (fields * string) :=
  match cs with
  | [] => Some (f, v)
  | Lit p :: cs' =>
      match skip (S (String.length v + String.length p)) v p with
      | Some v' => parse_chunks cs' f v'
      | None => None
      end
  | Elem s :: cs' =>
      match parse_std s f v with
      | Some (f', v') => parse_chunks cs' f' v'
      | None => None
      end
  end.

(** [time.Parse(layout, value)]: [None] when Go returns an error. *)
Definition Parse (layout value : string) : option Z :=
  match parse_chunks (chunks layout) init_fields value with
  | Some (f, EmptyString) =>
      let m := if f.(f_month) <? 0 then 1 else f.(f_month) in
      let d := if f.(f_day) <? 0 then 1 else f.(f_day) in
      if (d <? 1) || (daysIn m f.(f_year) <? d) then None
      else Some (date f.(f_year) m d f.(f_hour) f.(f_min) f.(f_sec) f.(f_nsec))
  | _ => None
  end.

(** Broken-down UTC fields of an instant. *)
Definition day_of (t : Z) : Z := Z.div t (86400 * sec_ns).
Definition secs_of_day (t : Z) : Z := Z.modulo t (86400 * sec_ns) / sec_ns.
Definition weekday (t : Z) : Z := (day_of t + 4) mod 7.

Definition nth_name (tab : list string) (i : Z) : string :=
  nth (Z.to_nat i) tab EmptyString.

(** [appendInt(b, x, width)]. *)
Definition appendInt (x : Z) (width : nat) : string :=
  if x <? 0 then String "-" (Str.padTo width (Str.itoa (- x)))
  else Str.padTo width (Str.itoa x).

Definition format_std (s : std) (t : Z) : string :=
  let '(y, mo, d) := civil_from_days (day_of t) in
  let sd := secs_of_day t in
  match s with
  | stdWeekDay => nth_name shortDayNames (weekday t)
  | stdMonth => nth_name shortMonthNames (mo - 1)
  | stdNumMonth => appendInt mo 0
  | stdZeroMonth => appendInt mo 2
  | stdDay => appendInt d 0
  | stdZeroDay => appendInt d 2
  | stdHour => appendInt (sd / 3600) 2
  | stdMinute => appendInt ((sd / 60) mod 60) 0
  | stdZeroMinute => appendInt ((sd / 60) mod 60) 2
  | stdSecond => appendInt (sd mod 60) 0
  | stdZeroSecond => appendInt (sd mod 60) 2
  | stdLongYear => appendInt y 4
  end.

(** [t.Format(layout)] for a UTC time. *)
Definition Format (layout : string) (t : Z) : string :=
  fold_right (fun c acc =>
    match c with
    | Lit s => String.append s acc
    | Elem s => String.append (format_std s t) acc
    end) EmptyString (chunks layout).

End GoTime.

(* ================================================================== *)
(** ** net/http headers: [http.Header] is [map[string][]string]; keys are
    stored in canonical form and [Get]/[Set] canonicalise their key. *)

Module Hdr.

(** [textproto.CanonicalMIMEHeaderKey] for keys made of letters, digits and
    '-' (all keys used by the package are such): upper case at the start
    and after '-', lower case elsewhere. *)
Fixpoint canon_aux (up : bool) (s : string) : string :=
  match s with
  | EmptyString => EmptyString
  | String c r =>
      let c' := if up then Str.upper c else Str.lower c in
      String c' (canon_aux (Ascii.eqb c "-") r)
  end.

Definition canonical (k : string) : string := canon_aux true k.

Definition Header := gmap string (list string).

(** [h.Get(key)]: the first value, or "". *)
Definition Get (h : Header) (k : string) : string :=
  match h !! canonical k with
  | Some (v :: _) => v
  | _ => EmptyString
  end.

(** [h.Set(key, value)]. *)
Definition Set_ (h : Header) (k v : string) : Header := <[canonical k := [v]]> h.

End Hdr.

(* ================================================================== *)
(** ** The [Response] struct and the freshness evaluator *)

(** The embedded [*http.Response]: the parts the package reads. *)
Record HttpResp := mkHttpResp { StatusCode : Z; RespHeader : Hdr.Header }.

Definition StatusNotModified : Z := 304.

(** [type Response struct { *http.Response; Err error; byteBody []byte;
    ttl *time.Time; lastModified *time.Time; etag string; revalidate bool }];
    a nil pointer is [None]. *)
Record Response := mkResponse {
  Resp : option HttpResp;
  Err : option string;
  byteBody : string;
  ttl : option Z;
  lastModified : option Z;
  etag : string;
  revalidate : bool }.

(** [new(Response)]. *)
Definition newResponse : Response := mkResponse None None EmptyString None None EmptyString false.

Definition with_Resp r v := mkResponse v r.(Err) r.(byteBody) r.(ttl) r.(lastModified) r.(etag) r.(revalidate).
Definition with_Err r v := mkResponse r.(Resp) v r.(byteBody) r.(ttl) r.(lastModified) r.(etag) r.(revalidate).
Definition with_byteBody r v := mkResponse r.(Resp) r.(Err) v r.(ttl) r.(lastModified) r.(etag) r.(revalidate).
Definition with_ttl r v := mkResponse r.(Resp) r.(Err) r.(byteBody) v r.(lastModified) r.(etag) r.(revalidate).
Definition with_lastModified r v := mkResponse r.(Resp) r.(Err) r.(byteBody) r.(ttl) v r.(etag) r.(revalidate).
Definition with_etag r v := mkResponse r.(Resp) r.(Err) r.(byteBody) r.(ttl) r.(lastModified) v r.(revalidate).
Definition with_revalidate r v := mkResponse r.(Resp) r.(Err) r.(byteBody) r.(ttl) r.(lastModified) r.(etag) v.

(** [resp.Header] through the embedded pointer.  The evaluator runs only
    after [response.Response = httpResp], so the pointer is set there; the
    empty header stands for the unreachable nil case. *)
Definition header_of (r : Response) : Hdr.Header :=
  match r.(Resp) with Some h => h.(RespHeader) | None => ∅ end.

(** [var httpDateFormat = "Mon, 01 Jan 2006 15:04:05 GMT"] (net.go:21). *)
Definition httpDateFormat : string := "Mon, 01 Jan 2006 15:04:05 GMT".

(** [regexp.MustCompile(`(?:max-age|s-maxage)=(\d+)`).FindStringSubmatch]:
    the submatch of the leftmost match.  The two alternatives start with
    different bytes, so at most one applies at a position; [\d+] is
    greedy. *)
Definition digits1 (s : string) : option string :=
  match GoTime.span_digits s with
  | (EmptyString, _) => None
  | (d, _) => Some d
  end.

Definition maxAge_at (s : string) : option string :=
  match String.prefix "max-age=" s, String.prefix "s-maxage=" s with
  | true, _ => digits1 (String.substring 8 (String.length s - 8) s)
  | false, true => digits1 (String.substring 9 (String.length s - 9) s)
  | false, false => None
  end.

Fixpoint maxAge_find (s : string) : option string :=
  match maxAge_at s with
  | Some d => Some d
  | None => match s with EmptyString => None | String _ r => maxAge_find r end
  end.

Definition max_int64 : Z := 2 ^ 63 - 1.

(** [strconv.Atoi] on a non-empty string of decimal digits (64-bit [int]):
    an error exactly when the value exceeds [max_int64]. *)
Definition Atoi (ds : string) : option Z :=
  let n := GoTime.digits_value 0 ds in
  if max_int64 <? n then None else Some n.

(** Two's complement wrap-around of [int64] arithmetic. *)
Definition wrap64 (x : Z) : Z :=
  let m := x mod 2 ^ 64 in if 2 ^ 63 <=? m then m - 2 ^ 64 else m.

(** [time.Duration(ttl) * time.Second]. *)
Definition seconds_duration (n : Z) : Z := wrap64 (wrap64 n * GoTime.sec_ns).

(** [setTTL(resp)] (net.go:288-324); [now] is the value of [time.Now()]. *)
Definition setTTL (now : Z) (resp : Response) : Response * bool :=
  match maxAge_find (Hdr.Get (header_of resp) "Cache-Control") with
  | Some d =>
      match Atoi d with
      | None => (resp, false)
      | Some n =>
          if 0 <? n then (with_ttl resp (Some (now + seconds_duration n)), true)
          else (resp, false)
      end
  | None =>
      match GoTime.Parse httpDateFormat (Hdr.Get (header_of resp) "Expires") with
      | None => (resp, false)
      | Some expires =>
          if 0 <? expires - now then (with_ttl resp (Some expires), true)
          else (resp, false)
      end
  end.

(** [setLastModified(resp)] (net.go:326-334). *)
Definition setLastModified (resp : Response) : Response * bool :=
  match GoTime.Parse httpDateFormat (Hdr.Get (header_of resp) "Last-Modified") with
  | None => (resp, false)
  | Some lm => (with_lastModified resp (Some lm), true)
  end.

(** [setETag(resp)] (net.go:336-345). *)
Definition setETag (resp : Response) : Response * bool :=
  let r := with_etag resp (Hdr.Get (header_of resp) "ETag") in
  (r, negb (String.eqb r.(etag) EmptyString)).

(* ================================================================== *)
(** ** net/url: the part of [url.Parse] and [URL.String] the package relies
    on: the scheme, the host of the authority, and the remaining text.
    Validation of user info, ports and percent escapes is not modelled; a
    control byte or a leading ':' are the parse errors kept. *)

Module Url.

Record URL := mkURL { Scheme : string; Host : string; Tail : string }.

Fixpoint has_ctl (s : string) : bool :=
  match s with
  | EmptyString => false
  | String c r => (Str.code c <? 32) || (Str.code c =? 127) || has_ctl r
  end.

(** [strings.Cut(s, sep)] for a one-byte separator. *)
Fixpoint cut (sep : ascii) (s : string) : string * option string :=
  match s with
  | EmptyString => (EmptyString, None)
  | String c r =>
      if Ascii.eqb c sep then (EmptyString, Some r)
      else let '(a, b) := cut sep r in (String c a, b)
  end.

(** Split before the first [sep], keeping it in the second part. *)
Fixpoint cut_keep (sep : ascii) (s : string) : string * string :=
  match s with
  | EmptyString => (EmptyString, EmptyString)
  | String c r =>
      if Ascii.eqb c sep then (EmptyString, s)
      else let '(a, b) := cut_keep sep r in (String c a, b)
  end.

Definition isLetter (c : ascii) : bool :=
  ((65 <=? Str.code c) && (Str.code c <=? 90)) || ((97 <=? Str.code c) && (Str.code c <=? 122)).

(** [getScheme(rawURL)]: [None] is the "missing protocol scheme" error. *)
Fixpoint getScheme_aux (first : bool) (acc rest raw : string) : option (string * string) :=
  match rest with
  | EmptyString => Some (EmptyString, raw)
  | String c r =>
      if isLetter c then getScheme_aux false (String.append acc (Str.ch c)) r raw
      else if Str.isDigit c || Ascii.eqb c "+" || Ascii.eqb c "-" || Ascii.eqb c "." then
        (if first then Some (EmptyString, raw)
         else getScheme_aux false (String.append acc (Str.ch c)) r raw)
      else if Ascii.eqb c ":" then (if first then None else Some (acc, r))
      else Some (EmptyString, raw)
  end.

Definition getScheme (raw : string) := getScheme_aux true EmptyString raw raw.

Fixpoint lower_string (s : string) : string :=
  match s with EmptyString => EmptyString | String c r => String (Str.lower c) (lower_string r) end.

Definition opt_part (sep : string) (o : option string) : string :=
  match o with Some x => String.append sep x | None => EmptyString end.

(** The modes of [unescape] that [url.Parse] uses. *)
Inductive encoding := encodePath | encodeHost | encodeZone | encodeUserPassword | encodeFragment.

Definition isHex (c : ascii) : bool :=
  Str.isDigit c || ((97 <=? Str.code c) && (Str.code c <=? 102))
  || ((65 <=? Str.code c) && (Str.code c <=? 70)).

Definition unhex (c : ascii) : Z :=
  if Str.isDigit c then Str.code c - 48
  else if (97 <=? Str.code c) && (Str.code c <=? 102) then Str.code c - 87
  else if (65 <=? Str.code c) && (Str.code c <=? 70) then Str.code c - 55
  else 0.

Definition isAlnum (c : ascii) : bool := isLetter c || Str.isDigit c.

Definition in_chars (c : ascii) (s : string) : bool :=
  match String.index 0 (Str.ch c) s with Some _ => true | None => false end.

(** [shouldEscape(c, encodeHost)] (also [encodeZone]): alphanumerics, the
    sub-delimiters, ':', brackets, angle brackets, the double quote
    (byte 34) and the unreserved marks may appear in a host. *)
Definition shouldEscapeHost (c : ascii) : bool :=
  negb (isAlnum c || in_chars c "!$&'()*+,;=:[]<>-_.~" || (Str.code c =? 34)).

Definition hostMode (m : encoding) : bool :=
  match m with encodeHost | encodeZone => true | _ => false end.

(** [unescape(s, mode)]: [None] is an [EscapeError] or an
    [InvalidHostError]. *)
Fixpoint unescape (mode : encoding) (s : string) : option string :=
  match s with
  | EmptyString => Some EmptyString
  | String c r =>
      if Ascii.eqb c "%" then
        match r with
        | String a (String b r') =>
            if isHex a && isHex b then
              let v := unhex a * 16 + unhex b in
              let pct25 := Ascii.eqb a "2" && Ascii.eqb b "5" in
              let bad :=
                match mode with
                | encodeHost => (unhex a <? 8) && negb pct25
                | encodeZone => negb pct25 && negb (v =? 32)
                                && shouldEscapeHost (ascii_of_nat (Z.to_nat v))
                | _ => false
                end in
              if bad then None
              else option_map (String (ascii_of_nat (Z.to_nat v))) (unescape mode r')
            else None
        | _ => None
        end
      else if hostMode mode && (Str.code c <? 128) && shouldEscapeHost c then None
      else option_map (String c) (unescape mode r)
  end.

(** Split at the last [sep]: the text before and after it. *)
Fixpoint rcut (sep : ascii) (s : string) : option (string * string) :=
  match s with
  | EmptyString => None
  | String c r =>
      match rcut sep r with
      | Some (a, b) => Some (String c a, b)
      | None => if Ascii.eqb c sep then Some (EmptyString, r) else None
      end
  end.

(** Split before the first "%25". *)
Fixpoint cut25 (s : string) : option (string * string) :=
  match s with
  | EmptyString => None
  | String c r =>
      if String.prefix "%25" s then Some (EmptyString, s)
      else match cut25 r with Some (a, b) => Some (String c a, b) | None => None end
  end.

Fixpoint all_digits (s : string) : bool :=
  match s with EmptyString => true | String c r => Str.isDigit c && all_digits r end.

(** [validOptionalPort(port)]. *)
Definition validOptionalPort (port : string) : bool :=
  match port with
  | EmptyString => true
  | String c r => Ascii.eqb c ":" && all_digits r
  end.

Definition opt_append (a b : option string) : option string :=
  match a, b with Some x, Some y => Some (String.append x y) | _, _ => None end.

(** [parseHost(host)]: the unescaped host, [None] on an error. *)
Definition parseHost (host : string) : option string :=
  if String.prefix "[" host then
    match rcut "]" host with
    | None => None
    | Some (inside, colonPort) =>
        if negb (validOptionalPort colonPort) then None else
        match cut25 inside with
        | Some (h1, h2) =>
            opt_append (unescape encodeHost h1)
              (opt_append (unescape encodeZone h2)
                          (unescape encodeHost (String "]" colonPort)))
        | None => unescape encodeHost host
        end
    end
  else
    match rcut ":" host with
    | Some (_, port) =>
        if validOptionalPort (String ":" port) then unescape encodeHost host else None
    | None => unescape encodeHost host
    end.

(** [validUserinfo(s)]; a byte above 127 belongs to a rune that is not
    allowed. *)
Fixpoint validUserinfo (s : string) : bool :=
  match s with
  | EmptyString => true
  | String c r => (isAlnum c || in_chars c "-._:~!$&'()*+,;=%@") && validUserinfo r
  end.

(** [parseAuthority(authority)]: the host, [None] on an error. *)
Definition parseAuthority (authority : string) : option string :=
  match rcut "@" authority with
  | None => parseHost authority
  | Some (userinfo, hostPart) =>
      match parseHost hostPart with
      | None => None
      | Some host =>
          if negb (validUserinfo userinfo) then None else
          let '(username, password) := cut ":" userinfo in
          match unescape encodeUserPassword username,
                option_map (unescape encodeUserPassword) password with
          | Some _, (None | Some (Some _)) => Some host
          | _, _ => None
          end
      end
  end.

Fixpoint has_colon (s : string) : bool :=
  match s with EmptyString => false | String c r => Ascii.eqb c ":" || has_colon r end.

(** [parse(rawURL, false)], on the text before the fragment. *)
Definition parse (u : string) : option URL :=
  if has_ctl u then None else
  match getScheme u with
  | None => None
  | Some (sch, rest) =>
      let scheme := lower_string sch in
      let '(rest', query) := cut "?" rest in
      let q := opt_part "?" query in
      if negb (String.prefix "/" rest') && negb (String.eqb scheme EmptyString) then
        (* opaque URL *)
        Some (mkURL scheme EmptyString (String.append rest' q))
      else if negb (String.prefix "/" rest') && has_colon (fst (cut "/" rest')) then
        None (* first path segment in URL cannot contain colon *)
      else if (negb (String.eqb scheme EmptyString) || negb (String.prefix "///" rest'))
              && String.prefix "//" rest' then
        let '(auth, path) := cut_keep "/" (String.substring 2 (String.length rest' - 2) rest') in
        match parseAuthority auth, unescape encodePath path with
        | Some host, Some _ => Some (mkURL scheme host (String.append path q))
        | _, _ => None
        end
      else
        match unescape encodePath rest' with
        | Some _ => Some (mkURL scheme EmptyString (String.append rest' q))
        | None => None
        end
  end.

(** [url.Parse(rawURL)]; [None] is a non-nil error.  [Tail] keeps the
    path, query and fragment as written. *)
Definition Parse (raw : string) : option URL :=
  let '(u, frag) := cut "#" raw in
  match parse u with
  | None => None
  | Some url =>
      match frag with
      | None => Some url
      | Some EmptyString => Some url
      | Some f =>
          match unescape encodeFragment f with
          | Some _ => Some (mkURL url.(Scheme) url.(Host) (String.append url.(Tail) (String.append "#" f)))
          | None => None
          end
      end
  end.

(** [u.String()] for a URL with a scheme and a host. *)
Definition String_ (u : URL) : string :=
  String.append u.(Scheme) (String.append "://" (String.append u.(Host) u.(Tail))).

End Url.

(* ================================================================== *)
(** ** The heap of Go reference values and the global state *)

Definition loc := positive.

(** [http.Transport]: the fields the package sets. *)
Record Transport := mkTransport { trMaxIdleConnsPerHost : Z; trProxy : option Url.URL }.

(** [http.Client]: [Transport] is a pointer that may be nil. *)
Record Client := mkClient { clTransport : option loc; clTimeout : Z }.

(** [http.Request]: its header map is a reference ([RHeader]). *)
Record Request := mkRequest { Method : string; RURL : string; RBody : string; RHeader : loc }.

Definition with_RHeader (r : Request) (h : loc) : Request :=
  mkRequest r.(Method) r.(RURL) r.(RBody) h.

(** Observable actions of a request, in the order performed. *)
Inductive Event :=
| EvCacheGet (url : string)          (* resourceCache.get *)
| EvCacheSetNX (url : string)        (* resourceCache.setNX *)
| EvMarshal                          (* rb.marshalReqBody *)
| EvConnect (url : string)           (* rb.connect *)
| EvSend (req : Request) (h : Hdr.Header). (* client.Do, with the headers sent *)

Record World := mkWorld {
  resps : gmap loc Response;            (* *Response objects *)
  hdrs : gmap loc Hdr.Header;           (* http.Header maps *)
  transports : gmap loc Transport;      (* *http.Transport objects *)
  clients : gmap loc Client;            (* *http.Client objects *)
  syncMaps : gmap loc (gmap string loc);(* *syncMap objects (client caches) *)
  resourceCache : gmap string loc;      (* the package's Resource Cache *)
  transportCache : gmap string loc;     (* var transportCache = newSyncMap() *)
  builderCache : gmap loc loc;          (* rb.clientCache, per builder *)
  trace : list Event }.                 (* most recent action first *)

Definition set_resps w v := mkWorld v w.(hdrs) w.(transports) w.(clients) w.(syncMaps) w.(resourceCache) w.(transportCache) w.(builderCache) w.(trace).
Definition set_hdrs w v := mkWorld w.(resps) v w.(transports) w.(clients) w.(syncMaps) w.(resourceCache) w.(transportCache) w.(builderCache) w.(trace).
Definition set_transports w v := mkWorld w.(resps) w.(hdrs) v w.(clients) w.(syncMaps) w.(resourceCache) w.(transportCache) w.(builderCache) w.(trace).
Definition set_clients w v := mkWorld w.(resps) w.(hdrs) w.(transports) v w.(syncMaps) w.(resourceCache) w.(transportCache) w.(builderCache) w.(trace).
Definition set_syncMaps w v := mkWorld w.(resps) w.(hdrs) w.(transports) w.(clients) v w.(resourceCache) w.(transportCache) w.(builderCache) w.(trace).
Definition set_resourceCache w v := mkWorld w.(resps) w.(hdrs) w.(transports) w.(clients) w.(syncMaps) v w.(transportCache) w.(builderCache) w.(trace).
Definition set_transportCache w v := mkWorld w.(resps) w.(hdrs) w.(transports) w.(clients) w.(syncMaps) w.(resourceCache) v w.(builderCache) w.(trace).
Definition set_builderCache w v := mkWorld w.(resps) w.(hdrs) w.(transports) w.(clients) w.(syncMaps) w.(resourceCache) w.(transportCache) v w.(trace).
Definition set_trace w v := mkWorld w.(resps) w.(hdrs) w.(transports) w.(clients) w.(syncMaps) w.(resourceCache) w.(transportCache) w.(builderCache) v.

(** A state monad over [World]. *)
Definition M (A : Type) : Type := World -> A * World.
Definition ret {A} (a : A) : M A := fun w => (a, w).
Definition bind {A B} (m : M A) (k : A -> M B) : M B :=
  fun w => let '(a, w') := m w in k a w'.

Notation "x <- m ;; k" := (bind m (fun x => k)) (at level 100, m at next level, right associativity).
Notation "m ;;; k" := (bind m (fun _ => k)) (at level 100, right associativity).

Definition modify (f : World -> World) : M unit := fun w => (tt, f w).
Definition gets {A} (f : World -> A) : M A := fun w => (f w, w).
Definition log (e : Event) : M unit := modify (fun w => set_trace w (e :: w.(trace))).

Definition allocResp (r : Response) : M loc := fun w =>
  let l := fresh (dom w.(resps)) in (l, set_resps w (<[l := r]> w.(resps))).
Definition allocHdr (h : Hdr.Header) : M loc := fun w =>
  let l := fresh (dom w.(hdrs)) in (l, set_hdrs w (<[l := h]> w.(hdrs))).
Definition allocTransport (t : Transport) : M loc := fun w =>
  let l := fresh (dom w.(transports)) in (l, set_transports w (<[l := t]> w.(transports))).
Definition allocClient (c : Client) : M loc := fun w =>
  let l := fresh (dom w.(clients)) in (l, set_clients w (<[l := c]> w.(clients))).
Definition allocSyncMap : M loc := fun w =>
  let l := fresh (dom w.(syncMaps)) in (l, set_syncMaps w (<[l := ∅]> w.(syncMaps))).

Definition readResp (l : loc) : M (option Response) := gets (fun w => w.(resps) !! l).
Definition updResp (l : loc) (f : Response -> Response) : M unit :=
  modify (fun w => set_resps w (alter f l w.(resps))).

(** [h.Set(k, v)] on the header map at [l]. *)
Definition hdrSet (l : loc) (k v : string) : M unit :=
  modify (fun w => set_hdrs w (alter (fun h => Hdr.Set_ h k v) l w.(hdrs))).

(** The Resource Cache (its code is outside src/). *)
(** Modelled from the spec: the Resource Cache [get(url)] "returns the stored
    entry if present"; the cache does not delete or alter entries. *)
Definition resourceCacheGet (url : string) : M (option loc) :=
  log (EvCacheGet url) ;;; gets (fun w => w.(resourceCache) !! url).

(** Modelled from the spec: the Resource Cache [setNX(url, response)]
    "stores the response only if no entry currently exists for that URL;
    returns whether the store took effect". *)
Definition resourceCacheSetNX (url : string) (l : loc) : M bool :=
  log (EvCacheSetNX url) ;;;
  fun w => match w.(resourceCache) !! url with
           | Some _ => (false, w)
           | None => (true, set_resourceCache w (<[url := l]> w.(resourceCache)))
           end.

(** Modelled from the spec: the [syncMap] [get] and [setNX] ("insert if
    absent") primitives, on the global transport cache and on a builder's
    client cache. *)
Definition transportGet (k : string) : M (option loc) :=
  gets (fun w => w.(transportCache) !! k).
Definition transportSetNX (k : string) (t : loc) : M bool := fun w =>
  match w.(transportCache) !! k with
  | Some _ => (false, w)
  | None => (true, set_transportCache w (<[k := t]> w.(transportCache)))
  end.
Definition syncGet (m : loc) (k : string) : M (option loc) :=
  gets (fun w => w.(syncMaps) !! m ≫= fun sm => sm !! k).
Definition syncSetNX (m : loc) (k : string) (v : loc) : M bool := fun w =>
  match w.(syncMaps) !! m with
  | Some sm =>
      match sm !! k with
      | Some _ => (false, w)
      | None => (true, set_syncMaps w (<[m := <[k := v]> sm]> w.(syncMaps)))
      end
  | None => (false, w)
  end.

(* ================================================================== *)
(** ** The request builder and the package-level settings *)

(** The content type constants [JSON] and [XML] of the package. *)
Inductive CType := JSON | XML.

(** [RequestBuilder]: the configuration fields the pipeline reads, and
    [rbId], the identity of the [*RequestBuilder] whose [clientCache]
    field is [builderCache !! rbId] in the world. *)
Record RequestBuilder := mkRB {
  rbId : loc;
  BaseURL : string;
  Headers : option loc;          (* http.Header; nil is None *)
  Timeout : Z;                   (* time.Duration, in ns *)
  ContentType : CType;
  DisableTimeout : bool;
  DisableCache : bool;
  MaxIdleConnsPerHost : Z;
  Proxy : string }.

(** The rest of the program's environment: package variables declared in
    other files ([mockUpEnv], [mockServerURL], [DefaultTimeout]), the
    encoders behind [json.Marshal]/[xml.Marshal] (a request body value is
    represented by a string, [None] is an encoding error), the network
    behind [client.Do] and [ioutil.ReadAll] ([None] is a transport error,
    an inner [None] a read error), and the clock read by [setTTL]. *)
Record Env := mkEnv {
  mockUpEnv : bool;
  mockServerURL : Url.URL;
  DefaultTimeout : Z;
  marshal : CType -> string -> option string;
  net : Request -> Hdr.Header -> option (HttpResp * option string);
  now : Z }.

Definition MethodGet : string := "GET".
Definition MethodHead : string := "HEAD".
Definition MethodOptions : string := "OPTIONS".
Definition MethodPost : string := "POST".
Definition MethodPut : string := "PUT".
Definition MethodPatch : string := "PATCH".

Definition readVerbs : list string := [MethodGet; MethodHead; MethodOptions].
Definition contentVerbs : list string := [MethodPost; MethodPut; MethodPatch].

(** [match(s, sarray)] (net.go:277-286). *)
Fixpoint match_ (s : string) (sarray : list string) : bool :=
  match sarray with
  | [] => false
  | v :: r => if String.eqb v s then true else match_ s r
  end.

Definition DefaultMaxIdleConnsPerHost : Z := 2.

(** [rb.getMaxIdle()] (net.go:191-198). *)
Definition getMaxIdle (rb : RequestBuilder) : Z :=
  if 0 <? rb.(MaxIdleConnsPerHost) then rb.(MaxIdleConnsPerHost) else DefaultMaxIdleConnsPerHost.

(** [rb.getTimeout()] (net.go:200-211). *)
Definition getTimeout (env : Env) (rb : RequestBuilder) : Z :=
  if rb.(DisableTimeout) then 0
  else if 0 <? rb.(Timeout) then rb.(Timeout)
  else env.(DefaultTimeout).

(** [rb.getClientCache()] (net.go:213-232).  The fast path and the check
    repeated under [rwMutex] return the same map once it is stored; the
    lock makes the check-then-create one atomic step. *)
Definition getClientCache (rb : RequestBuilder) : M loc :=
  c <- gets (fun w => w.(builderCache) !! rb.(rbId)) ;;
  match c with
  | Some m => ret m
  | None =>
      m <- allocSyncMap ;;
      modify (fun w => set_builderCache w (<[rb.(rbId) := m]> w.(builderCache))) ;;;
      ret m
  end.

(* ================================================================== *)
(** ** [connect] (net.go:144-189)

    [connect] is split at the one place where another caller's actions
    matter to it: [connect_prepare] runs up to the construction of the new
    client, [connect_publish] is [clientCache.setNX(schemeHost, client)]
    and the [return].  [connect] runs them in sequence; interleavings of
    several callers run the phases of different callers between each
    other. *)

Inductive Prepared :=
| Hit (client : loc)                                  (* clientCache.get found one *)
| Built (clientCache : loc) (schemeHost : string) (client : loc).

(** [tr.Proxy = http.ProxyURL(proxy)]; [tr] is never nil here: an entry of
    the transport cache is never removed, so the [get] after a failed
    [setNX] finds one. *)
Definition setProxy (tr : option loc) (p : Url.URL) : M unit :=
  match tr with
  | Some t => modify (fun w => set_transports w
                (alter (fun x => mkTransport x.(trMaxIdleConnsPerHost) (Some p)) t w.(transports)))
  | None => ret tt
  end.

Definition connect_prepare (env : Env) (rb : RequestBuilder) (urlStr : string)
  : M (option Prepared) :=
  clientCache <- getClientCache rb ;;
  match Url.Parse urlStr with
  | None => ret None
  | Some parsedURL =>
      let schemeHost := String.append parsedURL.(Url.Scheme)
                          (String.append "://" parsedURL.(Url.Host)) in
      c <- syncGet clientCache schemeHost ;;
      match c with
      | Some client => ret (Some (Hit client))
      | None =>
          tr0 <- transportGet schemeHost ;;
          tr <- (match tr0 with
                 | Some t => ret (Some t)
                 | None =>
                     t <- allocTransport (mkTransport (getMaxIdle rb) None) ;;
                     set <- transportSetNX schemeHost t ;;
                     if set then ret (Some t) else transportGet schemeHost
                 end) ;;
          client <- allocClient (mkClient tr (getTimeout env rb)) ;;
          (if negb (String.eqb rb.(Proxy) EmptyString) then
             match Url.Parse rb.(Proxy) with
             | Some proxy => setProxy tr proxy
             | None => ret tt
             end
           else ret tt) ;;;
          ret (Some (Built clientCache schemeHost client))
      end
  end.

Definition connect_publish (p : Prepared) : M loc :=
  match p with
  | Hit client => ret client
  | Built clientCache schemeHost client =>
      syncSetNX clientCache schemeHost client ;;;
      ret client
  end.

(** [rb.connect(urlStr)]: [None] is the URL parse error. *)
Definition connect (env : Env) (rb : RequestBuilder) (urlStr : string) : M (option loc) :=
  log (EvConnect urlStr) ;;;
  p <- connect_prepare env rb urlStr ;;
  match p with
  | None => ret None
  | Some p => c <- connect_publish p ;; ret (Some c)
  end.

(* ================================================================== *)
(** ** Request construction and [setParams] (net.go:234-275) *)

(** Bytes allowed in an HTTP token ([httpguts.IsTokenRune]). *)
Definition tokenChars : string :=
  "!#$%&'*+-.^_`|~0123456789ABCDEFGHIJKLMNOPQRSTUVWXYZabcdefghijklmnopqrstuvwxyz".

Fixpoint all_token (s : string) : bool :=
  match s with
  | EmptyString => true
  | String c r => match String.index 0 (Str.ch c) tokenChars with
                  | Some _ => all_token r | None => false end
  end.

(** [validMethod(method)] of net/http. *)
Definition validMethod (m : string) : bool :=
  negb (String.eqb m EmptyString) && all_token m.

(** [http.NewRequest(verb, reqURL, body)]: a fresh, empty header map;
    [None] is an error. *)
Definition newRequest (verb url body : string) : M (option Request) :=
  let m := if String.eqb verb EmptyString then MethodGet else verb in
  if negb (validMethod m) then ret None else
  match Url.Parse url with
  | None => ret None
  | Some _ => h <- allocHdr ∅ ;; ret (Some (mkRequest m url body h))
  end.

(** [rb.setParams(client, req, cacheResp, cacheURL)]; the request is
    returned since the assignment [req.Header = rb.Headers] changes it. *)
Definition setParams (env : Env) (rb : RequestBuilder) (req : Request)
  (cacheResp : option loc) (cacheURL : string) : M Request :=
  (* Default headers *)
  hdrSet req.(RHeader) "Connection" "keep-alive" ;;;
  hdrSet req.(RHeader) "Cache-Control" "no-cache" ;;;
  (* If mockup *)
  (if env.(mockUpEnv) then hdrSet req.(RHeader) "X-Original-URL" cacheURL else ret tt) ;;;
  (* Custom Headers *)
  let req := match rb.(Headers) with Some h => with_RHeader req h | None => req end in
  (* Encoding *)
  let cType := match rb.(ContentType) with JSON => "json" | XML => "xml" end in
  hdrSet req.(RHeader) "Accept" (String.append "application/" cType) ;;;
  (if match_ req.(Method) contentVerbs
   then hdrSet req.(RHeader) "Content-Type" (String.append "application/" cType)
   else ret tt) ;;;
  cr <- (match cacheResp with Some l => readResp l | None => ret None end) ;;
  (match cr with
   | Some c =>
       if c.(revalidate) then
         if negb (String.eqb c.(etag) EmptyString) then hdrSet req.(RHeader) "If-None-Match" c.(etag)
         else match c.(lastModified) with
              | Some t => hdrSet req.(RHeader) "If-Modified-Since" (GoTime.Format httpDateFormat t)
              | None => ret tt
              end
       else ret tt
   | None => ret tt
   end) ;;;
  ret req.

(** [client.Do(request)] followed by [ioutil.ReadAll]: the request goes
    out with the current contents of its header map. *)
Definition clientDo (env : Env) (client : loc) (req : Request)
  : M (option (HttpResp * option string)) :=
  h <- gets (fun w => default ∅ (w.(hdrs) !! req.(RHeader))) ;;
  log (EvSend req h) ;;;
  ret (env.(net) req h).

(** [rb.marshalReqBody(body)] (net.go:130-142); a nil body gives no bytes. *)
Definition marshalReqBody (env : Env) (rb : RequestBuilder) (body : option string)
  : M (option string) :=
  log EvMarshal ;;;
  match body with
  | None => ret (Some EmptyString)
  | Some v => ret (env.(marshal) rb.(ContentType) v)
  end.

(** [checkMockup(reqURL)] (net.go:110-128): the URL to send to and the
    cache URL; [None] is the parse error. *)
Definition checkMockup (env : Env) (reqURL : string) : option (string * string) :=
  let cacheURL := reqURL in
  if env.(mockUpEnv) then
    match Url.Parse reqURL with
    | None => None
    | Some rURL =>
        Some (Url.String_ (Url.mkURL env.(mockServerURL).(Url.Scheme)
                             env.(mockServerURL).(Url.Host) rURL.(Url.Tail)), cacheURL)
    end
  else Some (reqURL, cacheURL).

(* ================================================================== *)
(** ** [doRequest] (net.go:23-108).  A [*Response] result is [option loc]
    ([None] is nil). *)

Definition fail (response : loc) (msg : string) : M (option loc) :=
  updResp response (fun r => with_Err r (Some msg)) ;;; ret (Some response).

(** Lines 85-107: what follows a successful read of the response body. *)
Definition afterResponse (env : Env) (rb : RequestBuilder) (verb : string)
  (response : loc) (cacheResp : option loc) (cacheURL : string)
  (httpResp : HttpResp) (respBody : string) : M (option loc) :=
  if httpResp.(StatusCode) =? StatusNotModified then ret cacheResp else
  updResp response (fun r => with_byteBody (with_Resp r (Some httpResp)) respBody) ;;;
  r0 <- readResp response ;;
  let r0 := default newResponse r0 in
  let '(r1, ttl) := setTTL env.(now) r0 in
  let '(r2, lastModified) := setLastModified r1 in
  let '(r3, etag) := setETag r2 in
  let r4 := if negb ttl && (lastModified || etag) then with_revalidate r3 true else r3 in
  updResp response (fun _ => r4) ;;;
  (if negb rb.(DisableCache) && match_ verb readVerbs && (ttl || lastModified || etag)
   then resourceCacheSetNX cacheURL response
   else ret false) ;;;
  ret (Some response).

(** Lines 39-83: from marshalling to reading the response. *)
Definition sendRequest (env : Env) (rb : RequestBuilder) (verb reqURL : string)
  (reqBody : option string) (response : loc) (cacheResp : option loc) : M (option loc) :=
  body <- marshalReqBody env rb reqBody ;;
  match body with None => fail response "marshal error" | Some body =>
  match checkMockup env reqURL with None => fail response "url error" | Some (reqURL, cacheURL) =>
  client <- connect env rb reqURL ;;
  match client with None => fail response "url error" | Some client =>
  request <- newRequest verb reqURL body ;;
  match request with None => fail response "request error" | Some request =>
  request <- setParams env rb request cacheResp cacheURL ;;
  res <- clientDo env client request ;;
  match res with
  | None => fail response "transport error"
  | Some (_, None) => fail response "read error"
  | Some (httpResp, Some respBody) =>
      afterResponse env rb verb response cacheResp cacheURL httpResp respBody
  end end end end end.

Definition doRequest (env : Env) (rb : RequestBuilder) (verb reqURL : string)
  (reqBody : option string) : M (option loc) :=
  response <- allocResp newResponse ;;
  let reqURL := String.append rb.(BaseURL) reqURL in
  (* If Cache enable && operation is read: Cache GET *)
  cacheResp <- (if negb rb.(DisableCache) && match_ verb readVerbs
                then resourceCacheGet reqURL else ret None) ;;
  cached <- (match cacheResp with Some l => readResp l | None => ret None end) ;;
  match cacheResp, cached with
  | Some l, Some c =>
      if negb c.(revalidate) then ret (Some l)
      else sendRequest env rb verb reqURL reqBody response cacheResp
  | _, _ => sendRequest env rb verb reqURL reqBody response cacheResp
  end.

(* ================================================================== *)
(** ** Inputs and auxiliary notions used in the statements below *)

(** The IMF-fixdate layout as RFC 7231 writes it in Go's notation: the
    day of the month is the element "02".  It is compared with the
    package's [httpDateFormat]. *)
Definition imfFixdateLayout : string := "Mon, 02 Jan 2006 15:04:05 GMT".

(** A response as [doRequest] holds it once [response.Response = httpResp]
    is done, with the given header lines (canonical keys). *)
Definition respWithHeader (h : list (string * list string)) : Response :=
  with_Resp newResponse (Some (mkHttpResp 200 (list_to_map h))).

(** 2023-11-14T22:13:20Z. *)
Definition now2023 : Z := 1700000000 * GoTime.sec_ns.

Definition schemeHost_of (u : Url.URL) : string :=
  String.append u.(Url.Scheme) (String.append "://" u.(Url.Host)).

(** The client the builder's client cache holds for an origin. *)
Definition client_lookup (w : World) (rb : RequestBuilder) (sh : string) : option loc :=
  w.(builderCache) !! rb.(rbId) ≫= fun cc => w.(syncMaps) !! cc ≫= fun sm => sm !! sh.

(** Two callers of [rb.connect(urlStr)] on one builder, scheduled so that
    both miss the client cache before either publishes: A prepares, B
    prepares, A publishes, B publishes.  The result is (A's client, B's
    client). *)
Definition connect_race (env : Env) (rb : RequestBuilder) (urlStr : string)
  : M (option loc * option loc) :=
  pa <- connect_prepare env rb urlStr ;;
  pb <- connect_prepare env rb urlStr ;;
  ca <- (match pa with Some p => c <- connect_publish p ;; ret (Some c) | None => ret None end) ;;
  cb <- (match pb with Some p => c <- connect_publish p ;; ret (Some c) | None => ret None end) ;;
  ret (ca, cb).

Definition emptyWorld : World := mkWorld ∅ ∅ ∅ ∅ ∅ ∅ ∅ ∅ [].

(** A builder for [http://api.example.com]: JSON, caching on, no custom
    headers, no proxy. *)
Definition rb0 : RequestBuilder :=
  mkRB 1%positive "http://api.example.com" None 0 JSON false false 0 EmptyString.

Definition proxyBuilder : RequestBuilder :=
  mkRB 2%positive "http://api.example.com" None 0 JSON false false 0 "http://proxy.example.com:3128".

(** An environment whose server answers every request with [status],
    header [h] and body "hello"; no mock-up redirection. *)
Definition envAnswering (status : Z) (h : list (string * list string)) : Env :=
  mkEnv false (Url.mkURL "http" "localhost" EmptyString) 0 (fun _ v => Some v)
        (fun _ _ => Some (mkHttpResp status (list_to_map h), Some "hello")) now2023.

(** A world where another builder already created the transport of
    [http://api.example.com] (at location 1, without proxy). *)
Definition worldSharedTransport : World :=
  mkWorld ∅ ∅ {[ 1%positive := mkTransport 2 None ]} ∅ ∅ ∅
          {[ "http://api.example.com" := 1%positive ]} ∅ [].

(** The headers of the most recent request sent. *)
Fixpoint sent_headers (t : list Event) : option Hdr.Header :=
  match t with
  | [] => None
  | EvSend _ h :: _ => Some h
  | _ :: t' => sent_headers t'
  end.

(** The content-type name [setParams] derives from the builder. *)
Definition cTypeName (rb : RequestBuilder) : string :=
  match rb.(ContentType) with JSON => "json" | XML => "xml" end.

(** The custom header map [H] with the content-negotiation headers that
    [setParams] sets in it for a request with method [m]. *)
Definition with_content_headers (rb : RequestBuilder) (m : string) (H : Hdr.Header) : Hdr.Header :=
  let H1 := Hdr.Set_ H "Accept" (String.append "application/" (cTypeName rb)) in
  if match_ m contentVerbs
  then Hdr.Set_ H1 "Content-Type" (String.append "application/" (cTypeName rb))
  else H1.

(** A builder with a custom header map (at location 1) and a world where
    that map holds [Accept: text/plain] and an API key. *)
Definition customBuilder : RequestBuilder :=
  mkRB 3%positive "http://api.example.com" (Some 1%positive) 0 JSON false false 0 EmptyString.

Definition worldCustomHeaders : World :=
  mkWorld ∅ {[ 1%positive := list_to_map [("Accept", ["text/plain"]); ("X-Api-Key", ["k"])] ]}
          ∅ ∅ ∅ ∅ ∅ ∅ [].

(** A response cached for [/a] that must be revalidated with its ETag. *)
Definition etagEntry : Response :=
  mkResponse (Some (mkHttpResp 200 (list_to_map [("Etag", ["abc"])]))) None "old"
             None None "abc" true.

Definition worldEtagEntry : World :=
  mkWorld {[ 1%positive := etagEntry ]}
          {[ 1%positive := list_to_map [("X-Api-Key", ["k"])] ]}
          ∅ ∅ ∅ {[ "http://api.example.com/a" := 1%positive ]} ∅ ∅ [].

(** A GET request for [/a] whose own header map is at location 2. *)
Definition reqGetA : Request := mkRequest "GET" "http://api.example.com/a" EmptyString 2%positive.
Definition worldEtagEntryReq : World :=
  set_hdrs worldEtagEntry (<[2%positive := ∅]> worldEtagEntry.(hdrs)).

(** Go's [p != nil] on a pointer held as an option. *)
Definition isSome {A} (o : option A) : bool := match o with Some _ => true | None => false end.

(** Events that touch the Resource Cache. *)
Definition cache_event (e : Event) : bool :=
  match e with EvCacheGet _ | EvCacheSetNX _ => true | _ => false end.

(** [w'] follows [w] without touching the Resource Cache: the cache is
    the same and the events added do not read or write it. *)
Definition Quiet (w w' : World) : Prop :=
  w'.(resourceCache) = w.(resourceCache) /\
  exists evs, w'.(trace) = evs ++ w.(trace) /\ Forall (fun e => cache_event e = false) evs.

(** ... and without touching any [Response] object. *)
Definition Frame (w w' : World) : Prop := Quiet w w' /\ w'.(resps) = w.(resps).

(** [m] takes every world to one related to it by [R]. *)
Definition preserves (R : World -> World -> Prop) {A} (m : M A) : Prop :=
  forall w, R w (snd (m w)).

Definition frame {A} (m : M A) : Prop := preserves Frame m.

(** What [sendRequest] can end in: a failure recorded in [Err] of the
    fresh response, or the network's answer handed to [afterResponse]. *)
Definition send_outcome (env : Env) (rb : RequestBuilder) (verb u : string)
  (resp : loc) (cr : option loc) (w : World) (res : option loc) (w' : World) : Prop :=
  (exists msg, Quiet w w' /\ res = Some resp /\
     w'.(resps) = alter (fun r => with_Err r (Some msg)) resp w.(resps))
  \/ (exists w1 req h hr bd, Frame w w1 /\ env.(net) req h = Some (hr, Some bd) /\
        afterResponse env rb verb resp cr u hr bd w1 = (res, w')).

(** Inputs of the witnesses: servers answering 200 with an ETag, or 304. *)
Definition envEtag : Env := envAnswering 200 [("Etag", ["v1"])].
Definition env304 : Env := envAnswering 304 [].
(** A world whose Resource Cache holds [e] for [http://api.example.com/a]. *)
Definition worldCached (e : Response) : World :=
  mkWorld {[ 1%positive := e ]} ∅ ∅ ∅ ∅ {[ "http://api.example.com/a" := 1%positive ]} ∅ ∅ [].
(** [rb0] with [DisableCache] set. *)
Definition rbNoCache : RequestBuilder :=
  mkRB 1%positive "http://api.example.com" None 0 JSON false true 0 EmptyString.

(** The invariant of the builders' client caches: the client-cache
    reference of every builder names an allocated [syncMap]. *)
Definition WF_builders (w : World) : Prop :=
  map_Forall (fun _ m => is_Some (w.(syncMaps) !! m)) w.(builderCache).

(** An environment whose encoder fails on every body. *)
Definition envNoEncoder : Env :=
  mkEnv false (Url.mkURL "http" "localhost" EmptyString) 0 (fun _ _ => None)
        (fun _ _ => Some (mkHttpResp 200 ∅, Some "hello")) now2023.
(** A builder whose base URL has no scheme, so that no request URL built
    on it parses. *)
Definition rbBadBase : RequestBuilder :=
  mkRB 1%positive ":bad" None 0 JSON false false 0 EmptyString.

(* ================================================================== *)
(** ** Freshness evaluator *)

Lemma wrap64_small (x : Z) : 0 <= x <= max_int64 -> wrap64 x = x.
Proof.
  intros Hx. unfold wrap64, max_int64 in *.
  rewrite Z.mod_small by lia.
  destruct (Z.leb_spec (2 ^ 63) x); lia.
Qed.

(** With a usable [max-age]/[s-maxage] whose duration fits in an [int64],
    the ttl is [now] plus that many seconds, whatever [Expires] says. *)
Lemma setTTL_max_age (now : Z) (resp : Response) (d : string) (n : Z) :
  maxAge_find (Hdr.Get (header_of resp) "Cache-Control") = Some d ->
  Atoi d = Some n -> 0 < n -> n * GoTime.sec_ns <= max_int64 ->
  setTTL now resp = (with_ttl resp (Some (now + n * GoTime.sec_ns)), true).
Proof.
  intros Hf Ha Hn Hb. unfold setTTL. rewrite Hf, Ha.
  destruct (Z.ltb_spec 0 n); [|lia].
  unfold seconds_duration.
  assert (GoTime.sec_ns = 1000000000) as Hs by reflexivity.
  rewrite (wrap64_small n) by (rewrite Hs in Hb; lia).
  rewrite wrap64_small by (rewrite Hs in *; lia).
  reflexivity.
Qed.

(** A [max-age]/[s-maxage] match whose number is not positive, or does not
    fit an [int], ends the evaluation with no ttl: [Expires] is not read. *)
Lemma setTTL_max_age_unusable (now : Z) (resp : Response) (d : string) :
  maxAge_find (Hdr.Get (header_of resp) "Cache-Control") = Some d ->
  (forall n, Atoi d = Some n -> n <= 0) ->
  setTTL now resp = (resp, false).
Proof.
  intros Hf Hn. unfold setTTL. rewrite Hf.
  destruct (Atoi d) as [n|] eqn:Ha; [|reflexivity].
  specialize (Hn n eq_refl). destruct (Z.ltb_spec 0 n); [lia|reflexivity].
Qed.

(** Without any match, the result depends on [Expires] alone. *)
Lemma setTTL_no_max_age (now : Z) (resp : Response) :
  maxAge_find (Hdr.Get (header_of resp) "Cache-Control") = None ->
  setTTL now resp =
    match GoTime.Parse httpDateFormat (Hdr.Get (header_of resp) "Expires") with
    | Some e => if 0 <? e - now then (with_ttl resp (Some e), true) else (resp, false)
    | None => (resp, false)
    end.
Proof. intros Hf. unfold setTTL. rewrite Hf. reflexivity. Qed.

(** C1 (code_bug): a well-formed IMF-fixdate whose day of the month is
    above 12 does not parse with [httpDateFormat], whose "01" is Go's
    zero-padded month element: [setLastModified] reports false and a
    future [Expires] sets no ttl, although the date parses with the
    IMF-fixdate layout.  With a day of 12 or less the parse succeeds but
    the day is read as a month number and replaced by the month name, so
    "Tue, 05 Nov 1994" is stored as 1 November 1994. *)
Lemma httpDateFormat_misreads_imf_fixdate :
  GoTime.Parse imfFixdateLayout "Tue, 15 Nov 1994 08:12:31 GMT"
    = Some (784887151 * GoTime.sec_ns) /\
  GoTime.Parse httpDateFormat "Tue, 15 Nov 1994 08:12:31 GMT" = None /\
  snd (setLastModified (respWithHeader [("Last-Modified", ["Tue, 15 Nov 1994 08:12:31 GMT"])]))
    = false /\
  setTTL now2023 (respWithHeader [("Expires", ["Tue, 15 Nov 2094 08:12:31 GMT"])])
    = (respWithHeader [("Expires", ["Tue, 15 Nov 2094 08:12:31 GMT"])], false) /\
  (fst (setLastModified (respWithHeader [("Last-Modified", ["Tue, 05 Nov 1994 08:12:31 GMT"])]))).(lastModified)
    = Some (GoTime.date 1994 11 1 8 12 31 0).
Proof. vm_compute. repeat split; reflexivity. Qed.

(** C2 (code_bug): [time.Duration(ttl) * time.Second] wraps around in
    [int64]: [max-age=10000000000] (about 317 years) gives a ttl about 268
    years before [now], reported as a ttl set, instead of [now] plus
    10000000000 seconds. *)
Lemma setTTL_max_age_wraps :
  let r := respWithHeader [("Cache-Control", ["max-age=10000000000"])] in
  setTTL now2023 r = (with_ttl r (Some (now2023 - 8446744073709551616)), true) /\
  now2023 - 8446744073709551616 <> now2023 + 10000000000 * GoTime.sec_ns /\
  now2023 - 8446744073709551616 < now2023.
Proof. vm_compute. repeat split; try reflexivity; discriminate. Qed.

(* ================================================================== *)
(** ** Connection pool *)

Lemma connect_publish_built (cc : loc) (sh : string) (c : loc) (w : World) :
  fst (connect_publish (Built cc sh c) w) = c.
Proof. unfold connect_publish, bind, ret. simpl. destruct (syncSetNX cc sh c w). reflexivity. Qed.

(** C8 (code_bug): a builder without a proxy creates the transport for
    http://api.example.com and a client on it; a builder with a proxy then
    connects to the same origin and sets its proxy on that shared transport.
    The first builder's client, which is left as it was, now goes through
    the second builder's proxy. *)
Lemma connect_overwrites_cached_transport_proxy :
  let env := envAnswering 200 [] in
  let '(c1, w1) := connect env rb0 "http://api.example.com/items" emptyWorld in
  let '(_, w2) := connect env proxyBuilder "http://api.example.com/items" w1 in
  c1 = Some 1%positive /\
  w1.(transports) !! 1%positive = Some (mkTransport (getMaxIdle rb0) None) /\
  w2.(clients) !! 1%positive = Some (mkClient (Some 1%positive) (getTimeout env rb0)) /\
  w2.(transports) !! 1%positive
    = Some (mkTransport (getMaxIdle rb0) (Some (Url.mkURL "http" "proxy.example.com:3128" EmptyString))).
Proof. vm_compute. split_and!; reflexivity. Qed.

(** C9 (code_bug): when B's [setNX] finds A's client already published,
    B's [connect] still returns the client B built: the two callers of one
    builder use different clients for the same origin, and the client
    cache holds A's. *)
Lemma connect_race_returns_unpublished_client :
  let '(res, w) := connect_race (envAnswering 200 []) rb0 "http://api.example.com/items" emptyWorld in
  res = (Some 1%positive, Some 2%positive) /\
  client_lookup w rb0 "http://api.example.com" = Some 1%positive.
Proof. vm_compute. split; reflexivity. Qed.

(* ================================================================== *)
(** ** Request headers *)

Lemma Hdr_Get_Set (H : Hdr.Header) (k k' v : string) :
  Hdr.Get (Hdr.Set_ H k' v) k =
    if String.eqb (Hdr.canonical k') (Hdr.canonical k) then v else Hdr.Get H k.
Proof.
  unfold Hdr.Get, Hdr.Set_, Hdr.Header.
  destruct (String.eqb_spec (Hdr.canonical k') (Hdr.canonical k)) as [E|E].
  - rewrite E, lookup_insert_eq. reflexivity.
  - rewrite lookup_insert_ne by exact E. reflexivity.
Qed.

(** C7 (counterexample): the custom [Accept: text/plain] is not what the
    request carries: [Accept] is set after the custom map replaces the
    request's headers, and the default [Connection] header is gone. *)
Lemma setParams_custom_accept_overwritten :
  let '(_, w) := doRequest (envAnswering 200 []) customBuilder "GET" "/items" None
                           worldCustomHeaders in
  option_map (fun h => Hdr.Get h "Accept") (sent_headers w.(trace)) = Some "application/json" /\
  option_map (fun h => Hdr.Get h "X-Api-Key") (sent_headers w.(trace)) = Some "k" /\
  option_map (fun h => Hdr.Get h "Connection") (sent_headers w.(trace)) = Some "".
Proof. vm_compute. repeat split; reflexivity. Qed.

(** C4 (code_bug): with custom headers, the conditional header of one
    revalidation is written into the builder's own header map and sent
    again with the next request, which has no cache entry at all. *)
Lemma conditional_header_leaks_into_builder_headers :
  let env := envAnswering 200 [] in
  let '(_, w1) := doRequest env customBuilder "GET" "/a" None worldEtagEntry in
  let '(_, w2) := doRequest env customBuilder "GET" "/b" None w1 in
  w1.(resourceCache) !! "http://api.example.com/b" = None /\
  option_map (fun h => Hdr.Get h "If-None-Match") (sent_headers w2.(trace)) = Some "abc".
Proof. vm_compute. split; reflexivity. Qed.

Lemma Hdr_lookup_Set (H : Hdr.Header) (k v x : string) :
  Hdr.Set_ H k v !! x = if String.eqb (Hdr.canonical k) x then Some [v] else H !! x.
Proof.
  unfold Hdr.Set_. destruct (String.eqb_spec (Hdr.canonical k) x) as [<-|E].
  - apply lookup_insert_eq.
  - apply lookup_insert_ne. exact E.
Qed.

Ltac canonical_consts :=
  repeat match goal with
  | |- context [Hdr.canonical ?s] =>
      let v := eval vm_compute in (Hdr.canonical s) in change (Hdr.canonical s) with v
  end.

Ltac key_case k s :=
  let n := fresh "n" in
  destruct (String.eqb_spec k s) as [->|n]; [reflexivity|];
  rewrite ?(proj2 (String.eqb_neq _ _) n), ?(proj2 (String.eqb_neq _ _) (not_eq_sym n)).

Ltac key_cases k :=
  key_case k "Accept"; key_case k "Content-Type"; key_case k "If-None-Match";
  key_case k "If-Modified-Since"; reflexivity.

(** C7 (amended): on a builder with custom headers, [setParams] replaces
    the request's header map with the custom map [h] before it sets the
    content-negotiation headers.  Every entry of the map the request carries
    is determined: Accept, and Content-Type for POST/PUT/PATCH, hold the
    value derived from the content type; If-None-Match or If-Modified-Since
    hold the validator of a cached entry to revalidate; every other key,
    Connection and Cache-Control included, holds what the custom map held. *)
Theorem setParams_custom_headers (env : Env) (rb : RequestBuilder) (req : Request)
  (cacheResp : option loc) (cacheURL : string) (w : World) (h : loc) (H0 : Hdr.Header) :
  rb.(Headers) = Some h -> w.(hdrs) !! h = Some H0 -> req.(RHeader) <> h ->
  let c := cacheResp ≫= fun l => w.(resps) !! l in
  let ct := String.append "application/" (cTypeName rb) in
  let '(req', w') := setParams env rb req cacheResp cacheURL w in
  exists H', w'.(hdrs) !! req'.(RHeader) = Some H' /\
  forall k, H' !! k =
    if String.eqb k "Accept" then Some [ct]
    else if String.eqb k "Content-Type" && match_ req.(Method) contentVerbs then Some [ct]
    else if String.eqb k "If-None-Match" then
      match c with
      | Some c => if c.(revalidate) && negb (String.eqb c.(etag) EmptyString)
                  then Some [c.(etag)] else H0 !! k
      | None => H0 !! k
      end
    else if String.eqb k "If-Modified-Since" then
      match c with
      | Some c => if c.(revalidate) && String.eqb c.(etag) EmptyString
                  then match c.(lastModified) with
                       | Some t => Some [GoTime.Format httpDateFormat t]
                       | None => H0 !! k
                       end
                  else H0 !! k
      | None => H0 !! k
      end
    else H0 !! k.
Proof.
  intros Hh HH0 Hne. cbv zeta.
  unfold setParams, hdrSet, modify, bind, ret, readResp, gets, cTypeName.
  rewrite Hh. cbn [with_RHeader Method RHeader].
  destruct (mockUpEnv env); destruct (match_ (Method req) contentVerbs);
  destruct cacheResp as [l|]; cbn [set_hdrs hdrs resps mbind option_bind];
  try destruct (resps w !! l) as [c|]; cbn [set_hdrs hdrs resps];
  try destruct (revalidate c); cbn [set_hdrs hdrs resps andb];
  try destruct (etag c =? "")%string eqn:Ee; cbn [set_hdrs hdrs resps negb];
  try destruct (lastModified c); cbn [set_hdrs hdrs resps].
  all: eexists; split;
    [ repeat first [rewrite lookup_alter_eq | rewrite lookup_alter_ne by congruence];
      rewrite HH0; reflexivity
    | intros k; rewrite ?Hdr_lookup_Set; canonical_consts; key_cases k ].
Qed.

Lemma setParams_custom_headers_witness :
  let c := Some 1%positive ≫= fun l => worldEtagEntryReq.(resps) !! l in
  let ct := String.append "application/" (cTypeName customBuilder) in
  let '(req', w') := setParams (envAnswering 200 []) customBuilder reqGetA (Some 1%positive)
                               "http://api.example.com/a" worldEtagEntryReq in
  exists H', w'.(hdrs) !! req'.(RHeader) = Some H' /\
  forall k, H' !! k =
    if String.eqb k "Accept" then Some [ct]
    else if String.eqb k "Content-Type" && match_ reqGetA.(Method) contentVerbs then Some [ct]
    else if String.eqb k "If-None-Match" then
      match c with
      | Some c => if c.(revalidate) && negb (String.eqb c.(etag) EmptyString)
                  then Some [c.(etag)] else (list_to_map [("X-Api-Key", ["k"])] : Hdr.Header) !! k
      | None => (list_to_map [("X-Api-Key", ["k"])] : Hdr.Header) !! k
      end
    else if String.eqb k "If-Modified-Since" then
      match c with
      | Some c => if c.(revalidate) && String.eqb c.(etag) EmptyString
                  then match c.(lastModified) with
                       | Some t => Some [GoTime.Format httpDateFormat t]
                       | None => (list_to_map [("X-Api-Key", ["k"])] : Hdr.Header) !! k
                       end
                  else (list_to_map [("X-Api-Key", ["k"])] : Hdr.Header) !! k
      | None => (list_to_map [("X-Api-Key", ["k"])] : Hdr.Header) !! k
      end
    else (list_to_map [("X-Api-Key", ["k"])] : Hdr.Header) !! k.
Proof.
  apply (setParams_custom_headers (envAnswering 200 []) customBuilder reqGetA (Some 1%positive)
           "http://api.example.com/a" worldEtagEntryReq 1%positive
           (list_to_map [("X-Api-Key", ["k"])]));
    [reflexivity | reflexivity | simpl; lia].
Defined.

(* ================================================================== *)
(** ** The frame of the request pipeline *)

Section Preserve.

Variable R : World -> World -> Prop.
Hypothesis R_refl : forall w, R w w.
Hypothesis R_trans : forall w1 w2 w3, R w1 w2 -> R w2 w3 -> R w1 w3.

Lemma preserves_ret {A} (a : A) : preserves R (ret a).
Proof. intros w. apply R_refl. Qed.

Lemma preserves_bind {A B} (m : M A) (k : A -> M B) :
  preserves R m -> (forall a, preserves R (k a)) -> preserves R (bind m k).
Proof.
  intros Hm Hk w. unfold bind. specialize (Hm w).
  destruct (m w) as [a w1]. eapply R_trans; [exact Hm | apply Hk].
Qed.

End Preserve.

Lemma Quiet_refl w : Quiet w w.
Proof. split; [reflexivity | exists []; split; [reflexivity | constructor]]. Qed.

Lemma Quiet_trans w1 w2 w3 : Quiet w1 w2 -> Quiet w2 w3 -> Quiet w1 w3.
Proof.
  intros [C1 (e1 & T1 & F1)] [C2 (e2 & T2 & F2)]. split; [congruence|].
  exists (e2 ++ e1). split; [rewrite T2, T1, app_assoc; reflexivity | apply Forall_app; auto].
Qed.

Lemma Frame_refl w : Frame w w.
Proof. split; [apply Quiet_refl | reflexivity]. Qed.

Lemma Frame_trans w1 w2 w3 : Frame w1 w2 -> Frame w2 w3 -> Frame w1 w3.
Proof. intros [Q1 R1] [Q2 R2]. split; [eapply Quiet_trans; eauto | congruence]. Qed.

Lemma frame_ret {A} (a : A) : frame (ret a).
Proof. apply preserves_ret, Frame_refl. Qed.

Lemma frame_bind {A B} (m : M A) (k : A -> M B) :
  frame m -> (forall a, frame (k a)) -> frame (bind m k).
Proof. apply preserves_bind, Frame_trans. Qed.

(** A step that changes neither the responses, the Resource Cache nor
    the trace. *)
Lemma frame_silent {A} (m : M A) :
  (forall w, let w' := snd (m w) in
     w'.(resps) = w.(resps) /\ w'.(resourceCache) = w.(resourceCache) /\ w'.(trace) = w.(trace)) ->
  frame m.
Proof.
  intros H w. destruct (H w) as (E1 & E2 & E3).
  split; [split; [exact E2 | exists []; split; [exact E3 | constructor]] | exact E1].
Qed.

Lemma frame_log (e : Event) : cache_event e = false -> frame (log e).
Proof.
  intros He w. split; [split; [reflexivity | exists [e]; split; [reflexivity | repeat constructor; exact He]] | reflexivity].
Qed.

Ltac silent := apply frame_silent; intros w; repeat split.

Lemma frame_gets {A} (f : World -> A) : frame (gets f).
Proof. silent. Qed.
Lemma frame_allocHdr h : frame (allocHdr h).
Proof. silent. Qed.
Lemma frame_allocClient c : frame (allocClient c).
Proof. silent. Qed.
Lemma frame_allocTransport t : frame (allocTransport t).
Proof. silent. Qed.
Lemma frame_allocSyncMap : frame allocSyncMap.
Proof. silent. Qed.
Lemma frame_hdrSet l k v : frame (hdrSet l k v).
Proof. silent. Qed.
Lemma frame_transportSetNX k t : frame (transportSetNX k t).
Proof. apply frame_silent; intros w; unfold transportSetNX; destruct (transportCache w !! k); repeat split. Qed.
Lemma frame_syncSetNX m k v : frame (syncSetNX m k v).
Proof. apply frame_silent; intros w; unfold syncSetNX; repeat case_match; repeat split. Qed.
Lemma frame_setProxy t p : frame (setProxy t p).
Proof. apply frame_silent; intros w; unfold setProxy; repeat case_match; repeat split. Qed.
Lemma frame_modify_builderCache f : frame (modify (fun w => set_builderCache w (f w))).
Proof. silent. Qed.

Ltac frame_tac :=
  repeat first
  [ apply frame_bind; [|intros ?]
  | apply frame_ret
  | apply frame_gets | apply frame_allocHdr | apply frame_allocClient
  | apply frame_allocTransport | apply frame_allocSyncMap | apply frame_hdrSet
  | apply frame_transportSetNX | apply frame_syncSetNX | apply frame_setProxy
  | apply frame_modify_builderCache
  | apply frame_log; reflexivity
  | match goal with
    | |- frame (match ?x with _ => _ end) => destruct x
    | |- frame (if ?b then _ else _) => destruct b
    end ].

Lemma frame_getClientCache rb : frame (getClientCache rb).
Proof. unfold getClientCache. frame_tac. Qed.
Lemma frame_connect_prepare env rb u : frame (connect_prepare env rb u).
Proof. unfold connect_prepare, transportGet, syncGet. frame_tac; apply frame_getClientCache. Qed.
Lemma frame_connect_publish p : frame (connect_publish p).
Proof. unfold connect_publish. frame_tac. Qed.
Lemma frame_connect env rb u : frame (connect env rb u).
Proof. unfold connect. frame_tac; first [apply frame_connect_prepare | apply frame_connect_publish]. Qed.
Lemma frame_newRequest verb u body : frame (newRequest verb u body).
Proof. unfold newRequest. frame_tac. Qed.
Lemma frame_setParams env rb req cr cu : frame (setParams env rb req cr cu).
Proof. unfold setParams, readResp. frame_tac. Qed.
Lemma frame_clientDo env c req : frame (clientDo env c req).
Proof. unfold clientDo. frame_tac. Qed.
Lemma frame_marshalReqBody env rb body : frame (marshalReqBody env rb body).
Proof. unfold marshalReqBody. frame_tac. Qed.

(* ================================================================== *)
(** ** [sendRequest] *)

Lemma bind_run {A B} (m : M A) (k : A -> M B) (w : World) :
  bind m k w = let '(a, w1) := m w in k a w1.
Proof. reflexivity. Qed.

Lemma fail_outcome env rb verb u resp cr w w1 msg :
  Frame w w1 ->
  let '(res, w') := fail resp msg w1 in send_outcome env rb verb u resp cr w res w'.
Proof.
  intros [[C (evs & T & Fe)] Rs]. left. exists msg. split; [|split; [reflexivity|]].
  - split; [exact C | exists evs; split; assumption].
  - simpl. rewrite Rs. reflexivity.
Qed.

Lemma checkMockup_cacheURL env u s c : checkMockup env u = Some (s, c) -> c = u.
Proof. unfold checkMockup. repeat case_match; intros; simplify_eq; reflexivity. Qed.

Ltac frame_step Facc :=
  rewrite bind_run;
  match goal with
  | |- context [match ?m ?w with pair _ _ => _ end] =>
      is_var w;
      let F := fresh "F" in
      assert (F : Frame w (snd (m w))) by
        (first [apply frame_marshalReqBody | apply frame_connect | apply frame_newRequest
               | apply frame_setParams | apply frame_clientDo]);
      let a := fresh "a" in let w' := fresh "w" in
      let E := fresh "E" in
      destruct (m w) as [a w'] eqn:E; simpl in F;
      apply (Frame_trans _ _ _ Facc) in F; clear Facc; rename F into Facc; cbv beta
  end.

Lemma sendRequest_cases env rb verb u body resp cr w :
  let '(res, w') := sendRequest env rb verb u body resp cr w in
  send_outcome env rb verb u resp cr w res w'.
Proof.
  pose proof (Frame_refl w) as Facc. unfold sendRequest.
  frame_step Facc.
  destruct a as [b|]; [|apply fail_outcome; exact Facc].
  destruct (checkMockup env u) as [[sendURL cacheURL]|] eqn:Hm; [|apply fail_outcome; exact Facc].
  rewrite (checkMockup_cacheURL _ _ _ _ Hm).
  frame_step Facc.
  destruct a as [client|]; [|apply fail_outcome; exact Facc].
  frame_step Facc.
  destruct a as [request|]; [|apply fail_outcome; exact Facc].
  frame_step Facc. rename a into req'.
  frame_step Facc.
  destruct a as [[hr [bd|]]|]; try (apply fail_outcome; exact Facc).
  match goal with
  | |- context [afterResponse ?a1 ?a2 ?a3 ?a4 ?a5 ?a6 ?a7 ?a8 ?a9] =>
      destruct (afterResponse a1 a2 a3 a4 a5 a6 a7 a8 a9) as [res w'] eqn:EA
  end.
  match goal with
  | H : clientDo _ _ _ _ = (Some (hr, Some bd), _) |- _ =>
      pose proof (f_equal fst H) as N; simpl in N
  end.
  right. eexists _, req', _, hr, bd. split; [exact Facc|]. split; [|exact EA].
  rewrite <- N. reflexivity.
Qed.

(* ================================================================== *)
(** ** Reaching the network *)

Lemma read_verb_valid verb :
  match_ verb readVerbs = true ->
  validMethod (if String.eqb verb EmptyString then MethodGet else verb) = true.
Proof.
  unfold readVerbs, match_.
  destruct (String.eqb_spec MethodGet verb) as [<-|]; [reflexivity|].
  destruct (String.eqb_spec MethodHead verb) as [<-|]; [reflexivity|].
  destruct (String.eqb_spec MethodOptions verb) as [<-|]; [reflexivity|].
  discriminate.
Qed.

Lemma marshalReqBody_result env rb body w :
  fst (marshalReqBody env rb body w) =
    match body with None => Some EmptyString | Some v => env.(marshal) rb.(ContentType) v end.
Proof. destruct body; reflexivity. Qed.

Lemma connect_prepare_some env rb u w pu :
  Url.Parse u = Some pu -> exists p, fst (connect_prepare env rb u w) = Some p.
Proof.
  intros Hp. unfold connect_prepare. rewrite bind_run.
  destruct (getClientCache rb w) as [cc w1]. rewrite Hp.
  unfold bind, ret, syncGet, gets, transportGet. simpl.
  repeat (case_match; simpl); eauto.
Qed.

Lemma connect_some env rb u w pu :
  Url.Parse u = Some pu -> exists c, fst (connect env rb u w) = Some c.
Proof.
  intros Hp. unfold connect. rewrite bind_run.
  destruct (log (EvConnect u) w) as [t w1]. cbv beta. rewrite bind_run.
  destruct (connect_prepare_some env rb u w1 pu Hp) as [p Ep].
  destruct (connect_prepare env rb u w1) as [p' w2]. simpl in Ep. subst p'.
  rewrite bind_run. destruct (connect_publish p w2). eexists. reflexivity.
Qed.

Lemma newRequest_some verb u body w pu :
  validMethod (if String.eqb verb EmptyString then MethodGet else verb) = true ->
  Url.Parse u = Some pu -> exists req, fst (newRequest verb u body w) = Some req.
Proof. intros Hv Hp. unfold newRequest. rewrite Hv, Hp. simpl. eexists. reflexivity. Qed.

Lemma sendRequest_net env rb verb u body resp cr w sendURL hr bd :
  match body with None => true | Some v => isSome (env.(marshal) rb.(ContentType) v) end = true ->
  checkMockup env u = Some (sendURL, u) -> isSome (Url.Parse sendURL) = true ->
  validMethod (if String.eqb verb EmptyString then MethodGet else verb) = true ->
  (forall req h, env.(net) req h = Some (hr, Some bd)) ->
  exists w1, Frame w w1 /\
    sendRequest env rb verb u body resp cr w = afterResponse env rb verb resp cr u hr bd w1.
Proof.
  intros Hb Hm Hs Hv Hn.
  destruct (Url.Parse sendURL) as [pu|] eqn:Hp; [|discriminate].
  pose proof (Frame_refl w) as Facc. unfold sendRequest.
  frame_step Facc.
  pose proof (f_equal fst E) as Ea. rewrite marshalReqBody_result in Ea. simpl in Ea.
  destruct a as [b|]; [|destruct body; simpl in Ea, Hb; [rewrite Ea in Hb|]; discriminate].
  rewrite Hm.
  frame_step Facc.
  destruct (connect_some env rb sendURL w0 pu Hp) as [c Ec]. rewrite E0 in Ec. simpl in Ec. subst a.
  frame_step Facc.
  destruct (newRequest_some verb sendURL b w1 pu Hv Hp) as [rq Er]. rewrite E1 in Er. simpl in Er. subst a.
  frame_step Facc. rename a into req'.
  frame_step Facc.
  pose proof (f_equal fst E3) as N. simpl in N. rewrite Hn in N. subst a.
  eexists. split; [exact Facc | reflexivity].
Qed.

(* ================================================================== *)
(** ** [afterResponse] *)

(** What the three evaluators leave unchanged, and what their results say. *)
Lemma setTTL_spec now r r' b :
  setTTL now r = (r', b) -> r.(ttl) = None ->
  b = isSome r'.(ttl) /\ r'.(Resp) = r.(Resp) /\ r'.(lastModified) = r.(lastModified) /\
  r'.(etag) = r.(etag) /\ r'.(revalidate) = r.(revalidate).
Proof. unfold setTTL. intros E Ht. repeat case_match; simplify_eq; simpl; rewrite ?Ht; auto. Qed.

Lemma setLastModified_spec r r' b :
  setLastModified r = (r', b) -> r.(lastModified) = None ->
  b = isSome r'.(lastModified) /\ r'.(Resp) = r.(Resp) /\ r'.(ttl) = r.(ttl) /\
  r'.(etag) = r.(etag) /\ r'.(revalidate) = r.(revalidate).
Proof. unfold setLastModified. intros E Hl. repeat case_match; simplify_eq; simpl; rewrite ?Hl; auto. Qed.

Lemma setETag_spec r r' b :
  setETag r = (r', b) ->
  b = negb (String.eqb r'.(etag) EmptyString) /\ r'.(Resp) = r.(Resp) /\ r'.(ttl) = r.(ttl) /\
  r'.(lastModified) = r.(lastModified) /\ r'.(revalidate) = r.(revalidate).
Proof. unfold setETag. intros E. simplify_eq. simpl. auto. Qed.

Lemma afterResponse_not_modified env rb verb resp cr cu hr bd w :
  hr.(StatusCode) = StatusNotModified ->
  afterResponse env rb verb resp cr cu hr bd w = (cr, w).
Proof. intros H. unfold afterResponse. rewrite H, Z.eqb_refl. reflexivity. Qed.

Lemma cacheSet_resps (c : bool) k l w :
  (snd ((if c then resourceCacheSetNX k l else ret false) w)).(resps) = w.(resps).
Proof. destruct c; [unfold resourceCacheSetNX, bind, log, modify; simpl; case_match|]; reflexivity. Qed.

(** Past a response other than 304, the fresh [Response] holds the
    network's answer and the flag of lines 94-100. *)
Lemma afterResponse_stored env rb verb resp cr cu hr bd w r0 :
  w.(resps) !! resp = Some r0 ->
  r0.(ttl) = None -> r0.(lastModified) = None -> r0.(revalidate) = false ->
  hr.(StatusCode) <> StatusNotModified ->
  let '(res, w') := afterResponse env rb verb resp cr cu hr bd w in
  res = Some resp /\
  exists r, w'.(resps) !! resp = Some r /\ r.(Resp) = Some hr /\
    r.(revalidate) = negb (isSome r.(ttl)) && (isSome r.(lastModified) || negb (String.eqb r.(etag) EmptyString)).
Proof.
  intros Hr Ht Hl Hv Hs. unfold afterResponse.
  rewrite (proj2 (Z.eqb_neq _ _) Hs).
  generalize (match_ verb readVerbs); intros rv.
  unfold bind, updResp, readResp, modify, gets.
  cbn [resps set_resps]. rewrite lookup_alter_eq, Hr.
  cbn [default fmap option_fmap option_map].
  destruct (setTTL (now env) _) as [r1 t] eqn:E1.
  destruct (setTTL_spec _ _ _ _ E1 Ht) as (Bt & Rp1 & L1 & Et1 & V1).
  destruct (setLastModified r1) as [r2 lm] eqn:E2.
  destruct (setLastModified_spec _ _ _ E2 ltac:(rewrite L1; exact Hl)) as (Bl & Rp2 & T2 & Et2 & V2).
  destruct (setETag r2) as [r3 e] eqn:E3.
  destruct (setETag_spec _ _ _ E3) as (Be & Rp3 & T3 & L3 & V3).
  match goal with
  | |- context [(if ?c then resourceCacheSetNX ?k ?l else ?z) ?w1] =>
      pose proof (cacheSet_resps c k l w1) as Hc;
      destruct ((if c then resourceCacheSetNX k l else z) w1) as [x w2]
  end.
  cbn [resps set_resps snd] in Hc.
  split; [reflexivity|].
  eexists; split; [rewrite Hc, lookup_alter_eq, lookup_alter_eq, Hr; reflexivity|].
  destruct (negb t && (lm || e)) eqn:C; cbn [Resp revalidate ttl lastModified etag with_revalidate];
    rewrite Rp3, Rp2, Rp1; (split; [reflexivity|]);
    rewrite ?V3, ?V2, ?V1, T3, T2, L3, <- Bt, <- Bl, <- Be; cbn; rewrite ?Hv; exact (eq_sym C).
Qed.

(* ================================================================== *)
(** ** [doRequest] *)

Lemma afterResponse_quiet env rb verb resp cr cu hr bd w :
  negb rb.(DisableCache) && match_ verb readVerbs = false ->
  Quiet w (snd (afterResponse env rb verb resp cr cu hr bd w)).
Proof.
  intros H. unfold afterResponse. destruct (StatusCode hr =? StatusNotModified); [apply Quiet_refl|].
  rewrite H. unfold bind, updResp, readResp, modify, gets, ret.
  destruct (setTTL _ _) as [r1 t]. destruct (setLastModified r1) as [r2 lm].
  destruct (setETag r2) as [r3 e].
  split; [reflexivity | exists []; split; [reflexivity | constructor]].
Qed.

Lemma fresh_resp_ne (w : World) (l : loc) (c : Response) :
  w.(resps) !! l = Some c -> fresh (dom w.(resps)) <> l.
Proof. intros E <-. apply (is_fresh (dom w.(resps))). apply elem_of_dom. eauto. Qed.

(** [doRequest] up to the call of [sendRequest]. *)
Lemma doRequest_eq env rb verb u body w :
  doRequest env rb verb u body w =
  let f := fresh (dom w.(resps)) in
  let w1 := set_resps w (<[f := newResponse]> w.(resps)) in
  let key := String.append rb.(BaseURL) u in
  let '(cr, w2) := (if negb rb.(DisableCache) && match_ verb readVerbs
                    then resourceCacheGet key else ret None) w1 in
  match cr with
  | Some l =>
      match w2.(resps) !! l with
      | Some c => if negb c.(revalidate) then (Some l, w2)
                  else sendRequest env rb verb key body f cr w2
      | None => sendRequest env rb verb key body f cr w2
      end
  | None => sendRequest env rb verb key body f None w2
  end.
Proof.
  unfold doRequest. rewrite bind_run. unfold allocResp. cbv zeta. rewrite bind_run.
  match goal with
  | |- context [(if ?c then ?a else ?b) ?w1] => destruct ((if c then a else b) w1) as [cr w2]
  end.
  rewrite bind_run.
  destruct cr as [l|]; [|reflexivity]. unfold readResp, gets. cbv beta.
  destruct (resps w2 !! l) as [c|]; [destruct (negb (revalidate c))|]; reflexivity.
Qed.

Lemma doRequest_fresh_hit env rb verb u body w l c :
  rb.(DisableCache) = false -> match_ verb readVerbs = true ->
  w.(resourceCache) !! String.append rb.(BaseURL) u = Some l ->
  w.(resps) !! l = Some c -> c.(revalidate) = false ->
  let '(res, w') := doRequest env rb verb u body w in
  res = Some l /\ w'.(resps) !! l = Some c /\
  w'.(trace) = EvCacheGet (String.append rb.(BaseURL) u) :: w.(trace) /\
  w'.(resourceCache) = w.(resourceCache).
Proof.
  intros Hd Hv Hk Hl Hr. rewrite doRequest_eq. cbv zeta.
  rewrite Hd, Hv. cbn [negb andb]. unfold resourceCacheGet, log, modify, gets, bind. cbn [resourceCache set_resps set_trace resps].
  rewrite Hk, lookup_insert_ne by (apply (fresh_resp_ne w l c Hl)).
  rewrite Hl, Hr. simpl negb. cbv iota.
  cbn [resps set_trace set_resps trace resourceCache].
  rewrite lookup_insert_ne by (apply (fresh_resp_ne w l c Hl)).
  auto.
Qed.

Lemma doRequest_no_cache env rb verb u body w :
  rb.(DisableCache) = true \/ match_ verb readVerbs = false ->
  Quiet w (snd (doRequest env rb verb u body w)).
Proof.
  intros H.
  assert (Hc : negb rb.(DisableCache) && match_ verb readVerbs = false)
    by (destruct H as [-> | ->]; [reflexivity | apply andb_false_r]).
  rewrite doRequest_eq. cbv zeta. rewrite Hc. unfold ret at 1. cbv iota.
  match goal with
  | |- context [sendRequest ?e ?r ?v ?k ?b ?f ?cr ?w1] =>
      pose proof (sendRequest_cases e r v k b f cr w1) as Hs;
      destruct (sendRequest e r v k b f cr w1) as [res w'] eqn:Es
  end.
  simpl. destruct Hs as [(msg & Q & _) | (w2 & req & h & hr & bd & [Q _] & _ & Ea)].
  - eapply Quiet_trans; [|exact Q]. split; [reflexivity | exists []; split; [reflexivity | constructor]].
  - pose proof (afterResponse_quiet env rb verb (fresh (dom (resps w))) None
                  (String.append (BaseURL rb) u) hr bd w2 Hc) as Q2.
    rewrite Ea in Q2. simpl in Q2.
    eapply Quiet_trans; [|eapply Quiet_trans; [exact Q | exact Q2]].
    split; [reflexivity | exists []; split; [reflexivity | constructor]].
Qed.

Lemma sendRequest_not_modified env rb verb u body resp cr w sendURL hr bd :
  match body with None => true | Some v => isSome (env.(marshal) rb.(ContentType) v) end = true ->
  checkMockup env u = Some (sendURL, u) -> isSome (Url.Parse sendURL) = true ->
  validMethod (if String.eqb verb EmptyString then MethodGet else verb) = true ->
  (forall req h, env.(net) req h = Some (hr, Some bd)) -> hr.(StatusCode) = StatusNotModified ->
  fst (sendRequest env rb verb u body resp cr w) = cr /\
  Frame w (snd (sendRequest env rb verb u body resp cr w)).
Proof.
  intros Hb Hm Hs Hv Hn H304.
  destruct (sendRequest_net env rb verb u body resp cr w sendURL hr bd Hb Hm Hs Hv Hn) as (w1 & F & ->).
  rewrite afterResponse_not_modified by exact H304. split; [reflexivity | exact F].
Qed.

Lemma doRequest_revalidated_hit env rb verb u body w l c sendURL hr bd :
  rb.(DisableCache) = false -> match_ verb readVerbs = true ->
  w.(resourceCache) !! String.append rb.(BaseURL) u = Some l ->
  w.(resps) !! l = Some c -> c.(revalidate) = true ->
  match body with None => true | Some v => isSome (env.(marshal) rb.(ContentType) v) end = true ->
  checkMockup env (String.append rb.(BaseURL) u) = Some (sendURL, String.append rb.(BaseURL) u) ->
  isSome (Url.Parse sendURL) = true ->
  (forall req h, env.(net) req h = Some (hr, Some bd)) -> hr.(StatusCode) = StatusNotModified ->
  let '(res, w') := doRequest env rb verb u body w in
  res = Some l /\
  w'.(resps) = <[fresh (dom w.(resps)) := newResponse]> w.(resps) /\
  w'.(resps) !! l = Some c /\
  w'.(resourceCache) = w.(resourceCache) /\
  exists evs, w'.(trace) = evs ++ EvCacheGet (String.append rb.(BaseURL) u) :: w.(trace) /\
              Forall (fun e => cache_event e = false) evs.
Proof.
  intros Hd Hv Hk Hl Hr Hb Hm Hs Hn H304.
  rewrite doRequest_eq. cbv zeta.
  rewrite Hd, Hv. cbn [negb andb]. unfold resourceCacheGet, log, modify, gets, bind.
  cbn [resourceCache set_resps set_trace resps].
  rewrite Hk, lookup_insert_ne by (apply (fresh_resp_ne w l c Hl)).
  rewrite Hl, Hr. cbn [negb].
  match goal with
  | |- context [sendRequest ?e ?r ?v ?k ?b ?f ?cr ?w1] =>
      destruct (sendRequest_not_modified e r v k b f cr w1 sendURL hr bd Hb Hm Hs
                  (read_verb_valid _ Hv) Hn H304) as [R [[C (evs & T & Fe)] Rs]];
      destruct (sendRequest e r v k b f cr w1) as [res w']
  end.
  simpl in *. subst res. rewrite Rs, C, T. split; [reflexivity|]. split; [reflexivity|].
  split; [rewrite lookup_insert_ne by (apply (fresh_resp_ne w l c Hl)); exact Hl|].
  split; [reflexivity|]. exists evs. split; [reflexivity | exact Fe].
Qed.

Lemma doRequest_uncached_not_modified env rb verb u body w sendURL hr bd :
  rb.(DisableCache) = true \/ match_ verb readVerbs = false \/
    w.(resourceCache) !! String.append rb.(BaseURL) u = None ->
  match body with None => true | Some v => isSome (env.(marshal) rb.(ContentType) v) end = true ->
  checkMockup env (String.append rb.(BaseURL) u) = Some (sendURL, String.append rb.(BaseURL) u) ->
  isSome (Url.Parse sendURL) = true ->
  validMethod (if String.eqb verb EmptyString then MethodGet else verb) = true ->
  (forall req h, env.(net) req h = Some (hr, Some bd)) -> hr.(StatusCode) = StatusNotModified ->
  fst (doRequest env rb verb u body w) = None.
Proof.
  intros Hc Hb Hm Hs Hv Hn H304.
  rewrite doRequest_eq. cbv zeta.
  destruct (negb (DisableCache rb) && match_ verb readVerbs) eqn:C.
  - apply andb_prop in C as [Cd Cv].
    assert (Hk : w.(resourceCache) !! String.append rb.(BaseURL) u = None).
    { destruct Hc as [Hc | [Hc | Hc]]; [rewrite Hc in Cd; discriminate | congruence | exact Hc]. }
    unfold resourceCacheGet, log, modify, gets, bind. cbn [resourceCache set_resps set_trace].
    rewrite Hk.
    exact (proj1 (sendRequest_not_modified _ _ _ _ _ _ _ _ _ _ _ Hb Hm Hs Hv Hn H304)).
  - exact (proj1 (sendRequest_not_modified _ _ _ _ _ _ _ _ _ _ _ Hb Hm Hs Hv Hn H304)).
Qed.

Lemma cacheGet_resps (c : bool) k w :
  (snd ((if c then resourceCacheGet k else ret None) w)).(resps) = w.(resps).
Proof. destruct c; reflexivity. Qed.

(** A location that was free in [w] and is bound in [w'] with
    [resps w' = <[f := newResponse]> (resps w)] holds the fresh response. *)
Lemma only_fresh_is_new (w : World) (m : gmap loc Response) l r :
  m = <[fresh (dom w.(resps)) := newResponse]> w.(resps) ->
  w.(resps) !! l = None -> m !! l = Some r ->
  l = fresh (dom w.(resps)) /\ r = newResponse.
Proof.
  intros -> Hn Hs. destruct (decide (l = fresh (dom w.(resps)))) as [->|Ne].
  - rewrite lookup_insert_eq in Hs. split; congruence.
  - rewrite lookup_insert_ne in Hs by congruence. congruence.
Qed.

Lemma doRequest_revalidate env rb verb u body w w' l r :
  w.(resps) !! l = None ->
  doRequest env rb verb u body w = (Some l, w') ->
  w'.(resps) !! l = Some r -> isSome r.(Resp) = true ->
  r.(revalidate) = negb (isSome r.(ttl)) && (isSome r.(lastModified) || negb (String.eqb r.(etag) EmptyString)).
Proof.
  intros Hfree Hrun Hl HR.
  rewrite doRequest_eq in Hrun. cbv zeta in Hrun.
  set (f := fresh (dom (resps w))) in *.
  set (w1 := set_resps w (<[f := newResponse]> (resps w))) in *.
  match type of Hrun with
  | context [(if ?c then resourceCacheGet ?k else ret None) ?x] =>
      pose proof (cacheGet_resps c k x) as Rw2;
      destruct ((if c then resourceCacheGet k else ret None) x) as [cr w2]
  end.
  cbn [snd] in Rw2. subst w1. cbn [resps set_resps] in Rw2.
  (* the response at [l] is the fresh one, unless the answer is stored in it *)
  assert (Hnew : forall w3, w3.(resps) = w2.(resps) -> w3.(resps) !! l = Some r -> False).
  { intros w3 E3 L3. rewrite E3 in L3.
    destruct (only_fresh_is_new w _ l r Rw2 Hfree L3) as [_ ->]. discriminate. }
  assert (Hsend : sendRequest env rb verb (String.append (BaseURL rb) u) body f cr w2 = (Some l, w') ->
                  r.(revalidate) = negb (isSome r.(ttl)) &&
                                   (isSome r.(lastModified) || negb (String.eqb r.(etag) EmptyString))).
  { intros Es.
    pose proof (sendRequest_cases env rb verb (String.append (BaseURL rb) u) body f cr w2) as Hc.
    rewrite Es in Hc.
    destruct Hc as [(msg & _ & Hres & Rs) | (w3 & rq & h & hr & bd & [_ R3] & _ & Ea)].
    - injection Hres as <-. rewrite Rs, lookup_alter_eq, Rw2, lookup_insert_eq in Hl.
      injection Hl as <-. discriminate.
    - destruct (decide (StatusCode hr = StatusNotModified)) as [E304|N304].
      + rewrite afterResponse_not_modified in Ea by exact E304. injection Ea as -> <-.
        exfalso. exact (Hnew w3 R3 Hl).
      + assert (H0 : w3.(resps) !! f = Some newResponse) by (rewrite R3, Rw2; apply lookup_insert_eq).
        pose proof (afterResponse_stored env rb verb f cr (String.append (BaseURL rb) u) hr bd w3
                      newResponse H0 eq_refl eq_refl eq_refl N304) as Hst.
        rewrite Ea in Hst. destruct Hst as [Hres (r' & L' & _ & V')].
        injection Hres as <-. rewrite L' in Hl. injection Hl as <-. exact V'. }
  destruct cr as [l0|].
  - destruct (resps w2 !! l0) as [c0|] eqn:L0; [|exact (Hsend Hrun)].
    destruct (negb (revalidate c0)); [|exact (Hsend Hrun)].
    injection Hrun as <- <-. exfalso. exact (Hnew w2 eq_refl Hl).
  - exact (Hsend Hrun).
Qed.

(* ================================================================== *)
(** ** The response pipeline *)

(** C3: when [doRequest] returns the [Response] it created, holding a
    network answer, its [revalidate] flag is [!ttlSet && (lastModifiedSet
    || etagSet)], read off the stored [ttl], [lastModified] and [etag]. *)
Theorem doRequest_revalidate_rule env rb verb u body w w' l r :
  w.(resps) !! l = None ->
  doRequest env rb verb u body w = (Some l, w') ->
  w'.(resps) !! l = Some r -> isSome r.(Resp) = true ->
  r.(revalidate) = negb (isSome r.(ttl)) && (isSome r.(lastModified) || negb (String.eqb r.(etag) EmptyString)).
Proof. exact (doRequest_revalidate env rb verb u body w w' l r). Qed.

Lemma doRequest_revalidate_rule_witness :
  exists w' r, doRequest envEtag rb0 "GET" "/items" None emptyWorld = (Some 1%positive, w') /\
    w'.(resps) !! 1%positive = Some r /\ r.(revalidate) = true /\
    r.(revalidate) = negb (isSome r.(ttl)) && (isSome r.(lastModified) || negb (String.eqb r.(etag) EmptyString)).
Proof.
  exists (snd (doRequest envEtag rb0 "GET" "/items" None emptyWorld)),
    (default newResponse ((snd (doRequest envEtag rb0 "GET" "/items" None emptyWorld)).(resps) !! 1%positive)).
  split; [vm_compute; reflexivity|]. split; [vm_compute; reflexivity|].
  split; [vm_compute; reflexivity|].
  apply (doRequest_revalidate_rule envEtag rb0 "GET" "/items" None emptyWorld
           (snd (doRequest envEtag rb0 "GET" "/items" None emptyWorld)) 1%positive);
    vm_compute; reflexivity.
Defined.

(** C5: for a read verb with caching on, an entry whose [revalidate] is
    false is returned at once: the only event is the cache lookup, so no
    marshalling, connection or network call happens.  With caching off or
    another verb, the Resource Cache is neither read nor written. *)
Theorem doRequest_cache_check :
  (forall env rb verb u body w l c,
     rb.(DisableCache) = false -> match_ verb readVerbs = true ->
     w.(resourceCache) !! String.append rb.(BaseURL) u = Some l ->
     w.(resps) !! l = Some c -> c.(revalidate) = false ->
     let '(res, w') := doRequest env rb verb u body w in
     res = Some l /\ w'.(resps) !! l = Some c /\
     w'.(trace) = EvCacheGet (String.append rb.(BaseURL) u) :: w.(trace) /\
     w'.(resourceCache) = w.(resourceCache)) /\
  (forall env rb verb u body w,
     rb.(DisableCache) = true \/ match_ verb readVerbs = false ->
     Quiet w (snd (doRequest env rb verb u body w))).
Proof. split; [exact doRequest_fresh_hit | exact doRequest_no_cache]. Qed.

Lemma doRequest_cache_check_witness :
  (let '(res, w') := doRequest env304 rb0 "GET" "/a" None (worldCached (with_revalidate etagEntry false)) in
   res = Some 1%positive /\ w'.(resps) !! 1%positive = Some (with_revalidate etagEntry false) /\
   w'.(trace) = EvCacheGet "http://api.example.com/a" :: [] /\
   w'.(resourceCache) = (worldCached (with_revalidate etagEntry false)).(resourceCache)) /\
  Quiet (worldCached etagEntry) (snd (doRequest env304 rbNoCache "GET" "/a" None (worldCached etagEntry))).
Proof.
  split.
  - apply (proj1 doRequest_cache_check env304 rb0 "GET" "/a" None
             (worldCached (with_revalidate etagEntry false)) 1%positive (with_revalidate etagEntry false));
      vm_compute; reflexivity.
  - apply (proj2 doRequest_cache_check env304 rbNoCache "GET" "/a" None (worldCached etagEntry)).
    left. reflexivity.
Defined.

(** C6: when a revalidation-eligible entry was retrieved and the server
    answers 304, [doRequest] returns the cached [Response] object; no
    [Response] is changed (the fresh one stays as allocated, so no
    freshness evaluation ran) and the Resource Cache is not written. *)
Theorem doRequest_not_modified_returns_cached env rb verb u body w l c sendURL hr bd :
  rb.(DisableCache) = false -> match_ verb readVerbs = true ->
  w.(resourceCache) !! String.append rb.(BaseURL) u = Some l ->
  w.(resps) !! l = Some c -> c.(revalidate) = true ->
  match body with None => true | Some v => isSome (env.(marshal) rb.(ContentType) v) end = true ->
  checkMockup env (String.append rb.(BaseURL) u) = Some (sendURL, String.append rb.(BaseURL) u) ->
  isSome (Url.Parse sendURL) = true ->
  (forall req h, env.(net) req h = Some (hr, Some bd)) -> hr.(StatusCode) = StatusNotModified ->
  let '(res, w') := doRequest env rb verb u body w in
  res = Some l /\
  w'.(resps) = <[fresh (dom w.(resps)) := newResponse]> w.(resps) /\
  w'.(resps) !! l = Some c /\
  w'.(resourceCache) = w.(resourceCache) /\
  exists evs, w'.(trace) = evs ++ EvCacheGet (String.append rb.(BaseURL) u) :: w.(trace) /\
              Forall (fun e => cache_event e = false) evs.
Proof. exact (doRequest_revalidated_hit env rb verb u body w l c sendURL hr bd). Qed.

Lemma doRequest_not_modified_returns_cached_witness :
  let '(res, w') := doRequest env304 rb0 "GET" "/a" None (worldCached etagEntry) in
  res = Some 1%positive /\
  w'.(resps) = <[fresh (dom (worldCached etagEntry).(resps)) := newResponse]> (worldCached etagEntry).(resps) /\
  w'.(resps) !! 1%positive = Some etagEntry /\
  w'.(resourceCache) = (worldCached etagEntry).(resourceCache) /\
  exists evs, w'.(trace) = evs ++ EvCacheGet "http://api.example.com/a" :: (worldCached etagEntry).(trace) /\
              Forall (fun e => cache_event e = false) evs.
Proof.
  apply (doRequest_not_modified_returns_cached env304 rb0 "GET" "/a" None (worldCached etagEntry)
           1%positive etagEntry "http://api.example.com/a" (mkHttpResp 304 (list_to_map [])) "hello");
    vm_compute; reflexivity.
Defined.

(** C10: when no cache entry was retrieved (caching off, another verb, or
    no entry) and the server answers 304, [doRequest] returns nil. *)
Theorem doRequest_not_modified_uncached_nil env rb verb u body w sendURL hr bd :
  rb.(DisableCache) = true \/ match_ verb readVerbs = false \/
    w.(resourceCache) !! String.append rb.(BaseURL) u = None ->
  match body with None => true | Some v => isSome (env.(marshal) rb.(ContentType) v) end = true ->
  checkMockup env (String.append rb.(BaseURL) u) = Some (sendURL, String.append rb.(BaseURL) u) ->
  isSome (Url.Parse sendURL) = true ->
  validMethod (if String.eqb verb EmptyString then MethodGet else verb) = true ->
  (forall req h, env.(net) req h = Some (hr, Some bd)) -> hr.(StatusCode) = StatusNotModified ->
  fst (doRequest env rb verb u body w) = None.
Proof. exact (doRequest_uncached_not_modified env rb verb u body w sendURL hr bd). Qed.

Lemma doRequest_not_modified_uncached_nil_witness :
  fst (doRequest env304 rb0 "GET" "/items" None emptyWorld) = None.
Proof.
  apply (doRequest_not_modified_uncached_nil env304 rb0 "GET" "/items" None emptyWorld
           "http://api.example.com/items" (mkHttpResp 304 (list_to_map [])) "hello");
    try (vm_compute; reflexivity).
  right. right. reflexivity.
Defined.

(* ================================================================== *)
(** ** The connection pool: [getClientCache] and [connect] *)

Lemma WF_builders_step (w w' : World) :
  WF_builders w ->
  (forall id m, w'.(builderCache) !! id = Some m ->
     w.(builderCache) !! id = Some m \/ is_Some (w'.(syncMaps) !! m)) ->
  (forall m, is_Some (w.(syncMaps) !! m) -> is_Some (w'.(syncMaps) !! m)) ->
  WF_builders w'.
Proof.
  intros Hwf Hb Hs id m H. destruct (Hb _ _ H) as [H'|H']; [apply Hs, (Hwf _ _ H')|exact H'].
Qed.

Ltac is_some_ins := repeat rewrite lookup_insert_is_Some'; auto.

Ltac wf_fin Hwf :=
  apply (WF_builders_step _ _ Hwf); simpl;
  [ intros ?id ?m ?H;
    first [ left; exact H
          | apply lookup_insert_Some in H as [[? <-]|[? ?]]; [right; is_some_ins | left; assumption]]
  | intros ?m ?Hx; is_some_ins ].

Lemma connect_miss env rb u w pu :
  WF_builders w -> Url.Parse u = Some pu ->
  client_lookup w rb (schemeHost_of pu) = None ->
  let '(res, w1) := connect env rb u w in
  exists c t, res = Some c /\
    client_lookup w1 rb (schemeHost_of pu) = Some c /\
    w1.(transportCache) !! schemeHost_of pu = Some t /\
    w1.(clients) !! c = Some (mkClient (Some t) (getTimeout env rb)) /\
    w.(clients) !! c = None /\
    (w.(transportCache) !! schemeHost_of pu = None ->
       exists tr, w1.(transports) !! t = Some tr /\ tr.(trMaxIdleConnsPerHost) = getMaxIdle rb) /\
    (forall t0, w.(transportCache) !! schemeHost_of pu = Some t0 ->
       t = t0 /\ w1.(transportCache) = w.(transportCache)) /\
    WF_builders w1.
Proof.
  intros Hwf Hp Hm.
  unfold client_lookup in *.
  unfold connect, connect_prepare, getClientCache, log, modify, gets, bind, ret, syncGet,
    transportGet, allocSyncMap, allocClient, allocTransport, transportSetNX, setProxy,
    connect_publish, syncSetNX,
    set_trace, set_clients, set_syncMaps, set_builderCache, set_transports, set_transportCache.
  simpl. rewrite Hp. fold (schemeHost_of pu).
  set (sh := schemeHost_of pu) in *.
  destruct (builderCache w !! rbId rb) as [cc|] eqn:Hb.
  - destruct (Hwf _ _ Hb) as [sm Hsm]. simpl in Hm. rewrite Hsm in Hm. simpl in Hm.
    simpl. rewrite Hsm. simpl. rewrite Hm. simpl.
    destruct (transportCache w !! sh) as [t|] eqn:Ht; simpl.
    + destruct (negb _); [destruct (Url.Parse (Proxy rb))|]; unfold modify, bind, ret; simpl;
      rewrite Hsm, Hm; simpl;
      exists (fresh (dom (clients w))), t; split_and!; simpl; rewrite ?Hb, ?Ht; simpl;
      try simplify_map_eq; try reflexivity;
      first [ discriminate | apply not_elem_of_dom, is_fresh | intros ?t0 ?E; split; congruence | wf_fin Hwf].
    + rewrite Ht. simpl.
      destruct (negb _); [destruct (Url.Parse (Proxy rb))|]; unfold modify, bind, ret; simpl;
      rewrite Hsm, Hm; simpl;
      exists (fresh (dom (clients w))), (fresh (dom (transports w))); split_and!; simpl; rewrite ?Hb, ?Ht; simpl;
      try simplify_map_eq; try reflexivity;
      first [ discriminate | apply not_elem_of_dom, is_fresh | intros ?t0 ?E; split; congruence | wf_fin Hwf
            | intros _; eexists; split; reflexivity ].
  - simpl. rewrite lookup_insert_eq. simpl. rewrite lookup_empty. simpl.
    destruct (transportCache w !! sh) as [t|] eqn:Ht; simpl.
    + destruct (negb _); [destruct (Url.Parse (Proxy rb))|]; unfold modify, bind, ret; simpl;
      rewrite lookup_insert_eq; simpl; rewrite lookup_empty; simpl;
      exists (fresh (dom (clients w))), t; split_and!; simpl; rewrite ?Ht; simpl;
      try simplify_map_eq; try reflexivity;
      first [ discriminate | apply not_elem_of_dom, is_fresh | intros ?t0 ?E; split; congruence | wf_fin Hwf ].
    + rewrite Ht. simpl.
      destruct (negb _); [destruct (Url.Parse (Proxy rb))|]; unfold modify, bind, ret; simpl;
      rewrite lookup_insert_eq; simpl; rewrite lookup_empty; simpl;
      exists (fresh (dom (clients w))), (fresh (dom (transports w))); split_and!; simpl; rewrite ?Ht; simpl;
      try simplify_map_eq; try reflexivity;
      first [ discriminate | apply not_elem_of_dom, is_fresh | intros ?t0 ?E; split; congruence | wf_fin Hwf
            | intros _; eexists; split; reflexivity ].
Qed.

Lemma connect_hit env rb u w pu c :
  Url.Parse u = Some pu -> client_lookup w rb (schemeHost_of pu) = Some c ->
  connect env rb u w = (Some c, set_trace w (EvConnect u :: w.(trace))).
Proof.
  intros Hp Hc. unfold client_lookup in Hc.
  unfold connect, connect_prepare, getClientCache, log, modify, gets, bind, ret, syncGet,
    connect_publish.
  cbn [builderCache syncMaps set_trace]. rewrite Hp. fold (schemeHost_of pu).
  destruct (builderCache w !! rbId rb) as [cc|]; [|discriminate].
  cbn [mbind option_bind] in Hc. unfold gets. cbn [syncMaps set_trace]. rewrite Hc. reflexivity.
Qed.

Lemma getClientCache_run rb w :
  let '(m1, w1) := getClientCache rb w in
  w1.(builderCache) !! rb.(rbId) = Some m1 /\
  w1.(clients) = w.(clients) /\ w1.(transports) = w.(transports) /\
  w1.(transportCache) = w.(transportCache) /\
  (forall m, w.(builderCache) !! rb.(rbId) = Some m -> m1 = m /\ w1 = w) /\
  (w.(builderCache) !! rb.(rbId) = None ->
     w.(syncMaps) !! m1 = None /\ w1.(syncMaps) = <[m1 := ∅]> w.(syncMaps) /\
     w1.(builderCache) = <[rb.(rbId) := m1]> w.(builderCache)).
Proof.
  unfold getClientCache, gets, bind, ret, allocSyncMap, modify.
  destruct (builderCache w !! rbId rb) as [m|] eqn:Hb; cbn.
  - split_and!; auto; [intros m' E; injection E as ->; auto | intros E; discriminate].
  - rewrite lookup_insert_eq. split_and!; auto; [intros m' E; discriminate|].
    intros _. split_and!; auto. apply not_elem_of_dom, is_fresh.
Qed.

Lemma WF_getClientCache rb w : WF_builders w -> WF_builders (snd (getClientCache rb w)).
Proof.
  intros Hwf. pose proof (getClientCache_run rb w) as H.
  destruct (getClientCache rb w) as [m1 w1]; simpl.
  destruct H as (Hb & _ & _ & _ & Hhit & Hmiss).
  destruct (builderCache w !! rbId rb) as [m|] eqn:E.
  - destruct (Hhit m eq_refl) as [_ ->]. exact Hwf.
  - destruct (Hmiss eq_refl) as (_ & S & B).
    apply (WF_builders_step _ _ Hwf); rewrite ?S, ?B.
    + intros id m H; apply lookup_insert_Some in H as [[? <-]|[? ?]]; [right; is_some_ins | left; assumption].
    + intros m Hx; is_some_ins.
Qed.

Lemma connect_url_error_run env rb u w :
  Url.Parse u = None ->
  connect env rb u w =
    (None, snd (getClientCache rb (set_trace w (EvConnect u :: w.(trace))))).
Proof.
  intros Hp. unfold connect, connect_prepare, log, modify, bind, ret.
  destruct (getClientCache rb _) as [m1 w1]. rewrite Hp. reflexivity.
Qed.

Lemma getMaxIdle_pos rb : 0 < getMaxIdle rb.
Proof. unfold getMaxIdle, DefaultMaxIdleConnsPerHost. destruct (0 <? MaxIdleConnsPerHost rb) eqn:E; lia. Qed.

Lemma WF_connect env rb u w : WF_builders w -> WF_builders (snd (connect env rb u w)).
Proof.
  intros Hwf. destruct (Url.Parse u) as [pu|] eqn:Hp.
  - destruct (client_lookup w rb (schemeHost_of pu)) as [c|] eqn:Hl.
    + rewrite (connect_hit env rb u w pu c Hp Hl). exact Hwf.
    + pose proof (connect_miss env rb u w pu Hwf Hp Hl) as H.
      destruct (connect env rb u w) as [res w1]. simpl. destruct H as (? & ? & _ & _ & _ & _ & _ & _ & _ & W). exact W.
  - rewrite (connect_url_error_run env rb u w Hp). simpl.
    apply WF_getClientCache. exact Hwf.
Qed.

(** getClientCache *)

(** getClientCache (net.go:213-232): the builder's client cache is created
    once.  A call stores the map it returns in the builder; a second call
    returns that same map and changes nothing; an existing map is returned
    as is; a new one is a fresh, empty map. *)
Theorem getClientCache_stable rb w :
  let '(m1, w1) := getClientCache rb w in
  w1.(builderCache) !! rb.(rbId) = Some m1 /\
  getClientCache rb w1 = (m1, w1) /\
  (forall m, w.(builderCache) !! rb.(rbId) = Some m -> m1 = m /\ w1 = w) /\
  (w.(builderCache) !! rb.(rbId) = None ->
     w.(syncMaps) !! m1 = None /\ w1.(syncMaps) !! m1 = Some ∅).
Proof.
  pose proof (getClientCache_run rb w) as H.
  destruct (getClientCache rb w) as [m1 w1].
  destruct H as (Hb & _ & _ & _ & Hhit & Hmiss).
  split_and!; [exact Hb | | exact Hhit |].
  - pose proof (getClientCache_run rb w1) as H2. destruct (getClientCache rb w1) as [m2 w2].
    destruct H2 as (_ & _ & _ & _ & Hhit2 & _). destruct (Hhit2 m1 Hb) as [-> ->]. reflexivity.
  - intros E. destruct (Hmiss E) as (F & S & _). rewrite S, lookup_insert_eq. auto.
Qed.

(** connect url error *)

(** connect (net.go:144-189), URL parse error: [connect] returns the error
    (no client) and creates no client or transport and leaves the global
    transport cache alone; the builder's client cache is nevertheless
    created, since [getClientCache] runs before the parse. *)
Theorem connect_url_error env rb u w :
  Url.Parse u = None ->
  let '(res, w1) := connect env rb u w in
  res = None /\ w1.(clients) = w.(clients) /\ w1.(transports) = w.(transports) /\
  w1.(transportCache) = w.(transportCache) /\ is_Some (w1.(builderCache) !! rb.(rbId)).
Proof.
  intros Hp. rewrite (connect_url_error_run env rb u w Hp).
  pose proof (getClientCache_run rb (set_trace w (EvConnect u :: trace w))) as H.
  destruct (getClientCache rb _) as [m1 w1]. simpl.
  destruct H as (Hb & C & T & TC & _). rewrite C, T, TC, Hb. eauto.
Qed.

Lemma connect_url_error_witness :
  Url.Parse ":bad" = None /\
  (let '(res, w1) := connect (envAnswering 200 []) rb0 ":bad" emptyWorld in
   res = None /\ w1.(clients) = emptyWorld.(clients) /\ w1.(transports) = emptyWorld.(transports) /\
   w1.(transportCache) = emptyWorld.(transportCache) /\ is_Some (w1.(builderCache) !! rb0.(rbId))).
Proof.
  split; [vm_compute; reflexivity|].
  apply (connect_url_error (envAnswering 200 []) rb0 ":bad" emptyWorld). vm_compute. reflexivity.
Defined.

(** connect, client-cache hit: when the builder's client cache holds a
    client for the URL's scheme://host, [connect] returns it and changes
    nothing else: no transport, proxy or client is created or modified. *)
Theorem connect_cached_client env rb u w pu c :
  Url.Parse u = Some pu -> client_lookup w rb (schemeHost_of pu) = Some c ->
  connect env rb u w = (Some c, set_trace w (EvConnect u :: w.(trace))).
Proof. exact (connect_hit env rb u w pu c). Qed.

Lemma connect_cached_client_witness :
  connect (envAnswering 200 []) rb0 "http://api.example.com/b"
    (snd (connect (envAnswering 200 []) rb0 "http://api.example.com/a" emptyWorld)) =
  (Some 1%positive,
   set_trace (snd (connect (envAnswering 200 []) rb0 "http://api.example.com/a" emptyWorld))
     (EvConnect "http://api.example.com/b" ::
        (snd (connect (envAnswering 200 []) rb0 "http://api.example.com/a" emptyWorld)).(trace))).
Proof.
  apply (connect_cached_client (envAnswering 200 []) rb0 "http://api.example.com/b"
           (snd (connect (envAnswering 200 []) rb0 "http://api.example.com/a" emptyWorld))
           (Url.mkURL "http" "api.example.com" "/b") 1%positive); vm_compute; reflexivity.
Defined.

Lemma connect_new_transports env rb u w t tr :
  w.(transports) !! t = None -> (snd (connect env rb u w)).(transports) !! t = Some tr ->
  tr.(trMaxIdleConnsPerHost) = getMaxIdle rb.
Proof.
  intros Hn H.
  unfold connect, connect_prepare, getClientCache, log, modify, gets, bind, ret, syncGet,
    transportGet, allocSyncMap, allocClient, allocTransport, transportSetNX, setProxy,
    connect_publish, syncSetNX,
    set_trace, set_clients, set_syncMaps, set_builderCache, set_transports, set_transportCache in H.
  simpl in H.
  repeat (case_match; unfold ret, bind, modify, gets in *; simpl in *; simplify_eq); simpl in *;
  repeat match goal with
  | H : alter _ _ _ !! _ = Some _ |- _ => apply lookup_alter_Some in H as [(_ & ? & H & ->)|(_ & H)]; simpl
  | H : <[_ := _]> _ !! _ = Some _ |- _ => apply lookup_insert_Some in H as [(_ & <-)|(_ & H)]; [reflexivity|]
  end; congruence.
Qed.

(** connect, client-cache miss: the call returns a client it allocates,
    whose Timeout is [getTimeout] and whose transport is the one the global
    transport cache holds for the URL's scheme://host; every transport the
    call allocates has the [MaxIdleConnsPerHost] of [getMaxIdle], which is
    positive. *)
Theorem connect_builds_client env rb u w pu :
  WF_builders w -> Url.Parse u = Some pu ->
  client_lookup w rb (schemeHost_of pu) = None ->
  let '(res, w1) := connect env rb u w in
  (exists c t, res = Some c /\ w.(clients) !! c = None /\
     w1.(clients) !! c = Some (mkClient (Some t) (getTimeout env rb)) /\
     w1.(transportCache) !! schemeHost_of pu = Some t) /\
  (forall t tr, w.(transports) !! t = None -> w1.(transports) !! t = Some tr ->
     tr.(trMaxIdleConnsPerHost) = getMaxIdle rb /\ 0 < tr.(trMaxIdleConnsPerHost)).
Proof.
  intros Hwf Hp Hl. pose proof (connect_miss env rb u w pu Hwf Hp Hl) as H.
  pose proof (connect_new_transports env rb u w) as N.
  destruct (connect env rb u w) as [res w1]. simpl in N.
  destruct H as (c & t & R & _ & T & C & F & _).
  split; [exists c, t; split_and!; assumption|].
  intros t' tr Ht' Hw1. pose proof (N t' tr Ht' Hw1) as M.
  split; [exact M | rewrite M; apply getMaxIdle_pos].
Qed.

Lemma connect_builds_client_witness :
  let '(res, w1) := connect (envAnswering 200 []) rb0 "http://api.example.com/a" emptyWorld in
  (exists c t, res = Some c /\ emptyWorld.(clients) !! c = None /\
     w1.(clients) !! c = Some (mkClient (Some t) (getTimeout (envAnswering 200 []) rb0)) /\
     w1.(transportCache) !! "http://api.example.com" = Some t) /\
  (forall t tr, emptyWorld.(transports) !! t = None -> w1.(transports) !! t = Some tr ->
     tr.(trMaxIdleConnsPerHost) = getMaxIdle rb0 /\ 0 < tr.(trMaxIdleConnsPerHost)).
Proof.
  apply (connect_builds_client (envAnswering 200 []) rb0 "http://api.example.com/a" emptyWorld
           (Url.mkURL "http" "api.example.com" "/a")).
  - apply (bool_decide_unpack _). vm_compute. reflexivity.
  - vm_compute. reflexivity.
  - vm_compute. reflexivity.
Defined.

(** connect, transport reuse: on a client-cache miss for an origin whose
    transport is already in the global transport cache (created by any
    builder), the new client wraps that same transport and the transport
    cache is left unchanged. *)
Theorem connect_shares_transport env rb u w pu t0 :
  WF_builders w -> Url.Parse u = Some pu ->
  client_lookup w rb (schemeHost_of pu) = None ->
  w.(transportCache) !! schemeHost_of pu = Some t0 ->
  let '(res, w1) := connect env rb u w in
  exists c, res = Some c /\ w1.(clients) !! c = Some (mkClient (Some t0) (getTimeout env rb)) /\
    w1.(transportCache) = w.(transportCache).
Proof.
  intros Hwf Hp Hl Ht. pose proof (connect_miss env rb u w pu Hwf Hp Hl) as H.
  destruct (connect env rb u w) as [res w1].
  destruct H as (c & t & R & _ & _ & C & _ & _ & E & _).
  destruct (E t0 Ht) as [<- TC]. exists c. auto.
Qed.

Lemma connect_shares_transport_witness :
  let '(res, w1) := connect (envAnswering 200 []) rb0 "http://api.example.com/items" worldSharedTransport in
  exists c, res = Some c /\
    w1.(clients) !! c = Some (mkClient (Some 1%positive) (getTimeout (envAnswering 200 []) rb0)) /\
    w1.(transportCache) = worldSharedTransport.(transportCache).
Proof.
  apply (connect_shares_transport (envAnswering 200 []) rb0 "http://api.example.com/items"
           worldSharedTransport (Url.mkURL "http" "api.example.com" "/items") 1%positive).
  - apply (bool_decide_unpack _). vm_compute. reflexivity.
  - vm_compute. reflexivity.
  - vm_compute. reflexivity.
  - vm_compute. reflexivity.
Defined.

(** connect, sequential reuse: two calls on one builder for URLs with the
    same scheme://host return the same client, and the second call changes
    nothing but the event trace. *)
Theorem connect_reuses_client env rb u u' w pu pu' :
  WF_builders w -> Url.Parse u = Some pu -> Url.Parse u' = Some pu' ->
  schemeHost_of pu' = schemeHost_of pu ->
  let '(r1, w1) := connect env rb u w in
  let '(r2, w2) := connect env rb u' w1 in
  is_Some r1 /\ r2 = r1 /\ w2 = set_trace w1 (EvConnect u' :: w1.(trace)).
Proof.
  intros Hwf Hp Hp' Hs.
  assert (Hsecond : forall w1 c, client_lookup w1 rb (schemeHost_of pu) = Some c ->
            connect env rb u' w1 = (Some c, set_trace w1 (EvConnect u' :: w1.(trace)))).
  { intros w1 c L. rewrite <- Hs in L. exact (connect_hit env rb u' w1 pu' c Hp' L). }
  destruct (client_lookup w rb (schemeHost_of pu)) as [c|] eqn:Hl.
  - rewrite (connect_hit env rb u w pu c Hp Hl).
    assert (L : client_lookup (set_trace w (EvConnect u :: trace w)) rb (schemeHost_of pu) = Some c)
      by exact Hl.
    rewrite (Hsecond _ c L). eauto.
  - pose proof (connect_miss env rb u w pu Hwf Hp Hl) as H.
    destruct (connect env rb u w) as [r1 w1].
    destruct H as (c & t & -> & L & _).
    rewrite (Hsecond w1 c L). eauto.
Qed.

Lemma connect_reuses_client_witness :
  let '(r1, w1) := connect (envAnswering 200 []) rb0 "http://api.example.com/a" emptyWorld in
  let '(r2, w2) := connect (envAnswering 200 []) rb0 "http://api.example.com/b?x=1" w1 in
  is_Some r1 /\ r2 = r1 /\ w2 = set_trace w1 (EvConnect "http://api.example.com/b?x=1" :: w1.(trace)).
Proof.
  apply (connect_reuses_client (envAnswering 200 []) rb0 "http://api.example.com/a"
           "http://api.example.com/b?x=1" emptyWorld (Url.mkURL "http" "api.example.com" "/a")
           (Url.mkURL "http" "api.example.com" "/b?x=1")).
  - apply (bool_decide_unpack _). vm_compute. reflexivity.
  - vm_compute. reflexivity.
  - vm_compute. reflexivity.
  - reflexivity.
Defined.

(* ================================================================== *)
(** ** [match] and [setParams] without custom headers *)

(** match (net.go:277-286): [match(s, sarray)] is membership of [s] in
    [sarray]. *)
Theorem match_In (s : string) (l : list string) : match_ s l = true <-> In s l.
Proof.
  induction l as [|v r IH]; simpl; [split; [discriminate | tauto]|].
  destruct (String.eqb_spec v s) as [->|Ne]; [tauto|].
  rewrite IH. split; [auto | intros [E|H]; [congruence | exact H]].
Qed.

(** setParams (net.go:234-275) on a builder without custom headers, for a
    request whose header map is still empty: the request is kept, and its
    header map holds Connection and Cache-Control, Accept from the content
    type, Content-Type for POST/PUT/PATCH only, X-Original-URL in mock mode
    only, If-None-Match with the cached ETag of an entry to revalidate, and
    If-Modified-Since only for such an entry with an empty ETag and a known
    last-modified instant. *)
Theorem setParams_default_headers env rb req cr cu w :
  rb.(Headers) = None -> w.(hdrs) !! req.(RHeader) = Some ∅ ->
  let c := cr ≫= fun l => w.(resps) !! l in
  let '(req', w') := setParams env rb req cr cu w in
  req' = req /\
  exists H, w'.(hdrs) !! req.(RHeader) = Some H /\
    Hdr.Get H "Connection" = "keep-alive" /\
    Hdr.Get H "Cache-Control" = "no-cache" /\
    Hdr.Get H "Accept" = String.append "application/" (cTypeName rb) /\
    Hdr.Get H "Content-Type" =
      (if match_ req.(Method) contentVerbs then String.append "application/" (cTypeName rb) else "") /\
    Hdr.Get H "X-Original-URL" = (if env.(mockUpEnv) then cu else "") /\
    Hdr.Get H "If-None-Match" =
      (match c with Some c => if c.(revalidate) then c.(etag) else "" | None => "" end) /\
    Hdr.Get H "If-Modified-Since" =
      (match c with
       | Some c => if c.(revalidate) && String.eqb c.(etag) ""
                   then match c.(lastModified) with Some t => GoTime.Format httpDateFormat t | None => "" end
                   else ""
       | None => "" end).
Proof.
  intros Hh H0. cbv zeta.
  unfold setParams, hdrSet, modify, bind, ret, readResp, gets, cTypeName.
  rewrite Hh.
  destruct (mockUpEnv env); destruct (match_ (Method req) contentVerbs);
  destruct cr as [l|]; cbn [set_hdrs hdrs resps mbind option_bind];
  try destruct (resps w !! l) as [c|]; cbn [set_hdrs hdrs resps];
  try destruct (revalidate c); cbn [set_hdrs hdrs resps andb];
  try destruct (etag c =? "")%string eqn:Ee; cbn [set_hdrs hdrs resps negb];
  try destruct (lastModified c); cbn [set_hdrs hdrs resps].
  all: split; [reflexivity|]; eexists; split;
    [ repeat rewrite lookup_alter_eq; rewrite H0; reflexivity | ].
  all: rewrite ?Hdr_Get_Set; split_and!; try reflexivity.
  all: apply String.eqb_eq in Ee; rewrite Ee; reflexivity.
Qed.

Lemma setParams_default_headers_witness :
  let '(req', w') := setParams (envAnswering 200 []) rb0 reqGetA (Some 1%positive)
                               "http://api.example.com/a" worldEtagEntryReq in
  req' = reqGetA /\
  exists H, w'.(hdrs) !! 2%positive = Some H /\
    Hdr.Get H "Connection" = "keep-alive" /\
    Hdr.Get H "Cache-Control" = "no-cache" /\
    Hdr.Get H "Accept" = "application/json" /\
    Hdr.Get H "Content-Type" = "" /\
    Hdr.Get H "X-Original-URL" = "" /\
    Hdr.Get H "If-None-Match" = "abc" /\
    Hdr.Get H "If-Modified-Since" = "".
Proof.
  apply (setParams_default_headers (envAnswering 200 []) rb0 reqGetA (Some 1%positive)
           "http://api.example.com/a" worldEtagEntryReq); vm_compute; reflexivity.
Defined.

(* ================================================================== *)
(** ** What [doRequest] returns, stores and modifies *)

Lemma setTTL_Err now r : (fst (setTTL now r)).(Err) = r.(Err).
Proof. unfold setTTL. repeat case_match; reflexivity. Qed.

Lemma setLastModified_Err r : (fst (setLastModified r)).(Err) = r.(Err).
Proof. unfold setLastModified. repeat case_match; reflexivity. Qed.

Lemma afterResponse_result env rb verb resp cr cu hr bd w :
  fst (afterResponse env rb verb resp cr cu hr bd w) =
    if hr.(StatusCode) =? StatusNotModified then cr else Some resp.
Proof.
  unfold afterResponse. destruct (StatusCode hr =? StatusNotModified); [reflexivity|].
  unfold bind, updResp, readResp, modify, gets, ret.
  destruct (setTTL _ _) as [r1 t]. destruct (setLastModified r1) as [r2 lm].
  destruct (setETag r2) as [r3 e].
  match goal with
  | |- context [(if ?c then ?a else ?b) ?w1] => destruct ((if c then a else b) w1)
  end. reflexivity.
Qed.


Lemma sendRequest_result env rb verb u body resp cr w :
  let '(res, w') := sendRequest env rb verb u body resp cr w in
  res = Some resp \/
  (res = cr /\ exists req h hr bd t, w'.(trace) = EvSend req h :: t /\
     env.(net) req h = Some (hr, Some bd) /\ hr.(StatusCode) = StatusNotModified).
Proof.
  pose proof (Frame_refl w) as Facc. unfold sendRequest.
  frame_step Facc.
  destruct a as [b|]; [|cbv [fail updResp bind modify ret]; left; reflexivity].
  destruct (checkMockup env u) as [[sendURL cacheURL]|] eqn:Hm;
    [|cbv [fail updResp bind modify ret]; left; reflexivity].
  rewrite (checkMockup_cacheURL _ _ _ _ Hm).
  frame_step Facc.
  destruct a as [client|]; [|cbv [fail updResp bind modify ret]; left; reflexivity].
  frame_step Facc.
  destruct a as [request|]; [|cbv [fail updResp bind modify ret]; left; reflexivity].
  frame_step Facc. rename a into req'.
  frame_step Facc.
  match goal with
  | H : clientDo _ _ _ _ = (_, _) |- _ =>
      unfold clientDo, bind, gets, log, modify, ret in H; injection H as Na Tw
  end.
  destruct a as [[hr [bd|]]|]; try (cbv [fail updResp bind modify ret]; left; reflexivity).
  destruct (StatusCode hr =? StatusNotModified) eqn:S.
  - apply Z.eqb_eq in S. rewrite (afterResponse_not_modified _ _ _ _ _ _ _ _ _ S).
    right. split; [reflexivity|]. eexists _, _, hr, bd, _. split; [rewrite <- Tw; reflexivity|].
    split; [exact Na | exact S].
  - pose proof (afterResponse_result env rb verb resp cr u hr bd w4) as R.
    destruct (afterResponse env rb verb resp cr u hr bd w4) as [res w'].
    simpl in R. rewrite S in R. left. exact R.
Qed.

(** doRequest (net.go:23-108) returns nil, the Response it allocated, or
    the entry the Resource Cache holds for BaseURL+reqURL (only with caching
    on and a read verb).  It returns nil only when no entry was retrieved
    and the network answered 304 to the last request sent, the request and
    headers the trace records last. *)
Theorem doRequest_result env rb verb u body w :
  let key := String.append rb.(BaseURL) u in
  let '(res, w') := doRequest env rb verb u body w in
  match res with
  | None =>
      (rb.(DisableCache) = true \/ match_ verb readVerbs = false \/ w.(resourceCache) !! key = None) /\
      exists req h hr bd t, w'.(trace) = EvSend req h :: t /\
        env.(net) req h = Some (hr, Some bd) /\ hr.(StatusCode) = StatusNotModified
  | Some l =>
      l = fresh (dom w.(resps)) \/
      (rb.(DisableCache) = false /\ match_ verb readVerbs = true /\ w.(resourceCache) !! key = Some l)
  end.
Proof.
  cbv zeta. rewrite doRequest_eq. cbv zeta.
  destruct (negb (DisableCache rb) && match_ verb readVerbs) eqn:C.
  - apply andb_prop in C as [Cd Cv]. apply negb_true_iff in Cd.
    unfold resourceCacheGet, log, modify, gets, bind. cbn [resourceCache set_resps set_trace].
    destruct (resourceCache w !! String.append (BaseURL rb) u) as [l|] eqn:Hk.
    + match goal with
      | |- context [sendRequest ?e ?r ?v ?k ?b ?f ?cr ?w1] =>
          pose proof (sendRequest_result e r v k b f cr w1) as Hs;
          destruct (sendRequest e r v k b f cr w1) as [res w'] eqn:Es
      end.
      destruct (resps _ !! l) as [c|]; [destruct (negb (revalidate c))|];
        [right; auto | |];
        (destruct Hs as [-> | [-> _]]; [left; reflexivity | right; auto]).
    + match goal with
      | |- context [sendRequest ?e ?r ?v ?k ?b ?f ?cr ?w1] =>
          pose proof (sendRequest_result e r v k b f cr w1) as Hs;
          destruct (sendRequest e r v k b f cr w1) as [res w'] eqn:Es
      end.
      destruct Hs as [-> | [-> N]]; [left; reflexivity | auto].
  - unfold ret at 1. cbv iota.
    match goal with
    | |- context [sendRequest ?e ?r ?v ?k ?b ?f ?cr ?w1] =>
        pose proof (sendRequest_result e r v k b f cr w1) as Hs;
        destruct (sendRequest e r v k b f cr w1) as [res w'] eqn:Es
    end.
    destruct Hs as [-> | [-> N]]; [left; reflexivity|].
    split; [|exact N].
    destruct (DisableCache rb); [left; reflexivity|]. right; left. exact C.
Qed.




Lemma getClientCache_keeps rb w :
  let w1 := snd (getClientCache rb w) in
  w1.(resps) = w.(resps) /\ w1.(resourceCache) = w.(resourceCache) /\ w1.(trace) = w.(trace).
Proof.
  unfold getClientCache, gets, bind, ret, allocSyncMap, modify.
  destruct (builderCache w !! rbId rb); split_and!; reflexivity.
Qed.

(** The cache lookup of [doRequest] when it yields no entry. *)

Lemma doRequest_miss_eq env rb verb u body w :
  let key := String.append rb.(BaseURL) u in
  (rb.(DisableCache) = true \/ match_ verb readVerbs = false \/ w.(resourceCache) !! key = None) ->
  let f := fresh (dom w.(resps)) in
  let c := negb rb.(DisableCache) && match_ verb readVerbs in
  doRequest env rb verb u body w =
    sendRequest env rb verb key body f None
      (mkWorld (<[f := newResponse]> w.(resps)) w.(hdrs) w.(transports) w.(clients) w.(syncMaps)
               w.(resourceCache) w.(transportCache) w.(builderCache)
               ((if c then [EvCacheGet key] else []) ++ w.(trace))).
Proof.
  cbv zeta. intros H. rewrite doRequest_eq. cbv zeta.
  destruct (negb (DisableCache rb) && match_ verb readVerbs) eqn:C.
  - apply andb_prop in C as [Cd Cv]. apply negb_true_iff in Cd.
    assert (Hk : w.(resourceCache) !! String.append rb.(BaseURL) u = None)
      by (destruct H as [H|[H|H]]; [congruence|congruence|exact H]).
    unfold resourceCacheGet, log, modify, gets, bind. cbn [resourceCache set_resps set_trace].
    rewrite Hk. reflexivity.
  - reflexivity.
Qed.

(** doRequest, body encoding error (net.go:39-43): with no cache entry
    retrieved, the result is the allocated Response with Err set, nothing is
    connected or sent, and the Resource Cache is unchanged. *)
Theorem doRequest_marshal_error env rb verb u v w :
  env.(marshal) rb.(ContentType) v = None ->
  (rb.(DisableCache) = true \/ match_ verb readVerbs = false \/
   w.(resourceCache) !! String.append rb.(BaseURL) u = None) ->
  let f := fresh (dom w.(resps)) in
  let '(res, w') := doRequest env rb verb u (Some v) w in
  res = Some f /\
  w'.(resps) = <[f := with_Err newResponse (Some "marshal error")]> w.(resps) /\
  w'.(resourceCache) = w.(resourceCache) /\
  w'.(trace) = EvMarshal :: (if negb rb.(DisableCache) && match_ verb readVerbs
                             then [EvCacheGet (String.append rb.(BaseURL) u)] else []) ++ w.(trace).
Proof.
  intros Hm Hc. cbv zeta. rewrite (doRequest_miss_eq env rb verb u (Some v) w Hc).
  unfold sendRequest, marshalReqBody, log, modify, bind, ret. rewrite Hm.
  unfold fail, updResp, modify, bind, ret. cbn [resps set_resps resourceCache trace set_trace].
  rewrite alter_insert, decide_True by reflexivity. split_and!; reflexivity.
Qed.

Lemma doRequest_marshal_error_witness :
  let '(res, w') := doRequest envNoEncoder rb0 "POST" "/items" (Some "{}") emptyWorld in
  res = Some 1%positive /\
  w'.(resps) = <[1%positive := with_Err newResponse (Some "marshal error")]> ∅ /\
  w'.(resourceCache) = ∅ /\
  w'.(trace) = [EvMarshal].
Proof.
  apply (doRequest_marshal_error envNoEncoder rb0 "POST" "/items" "{}" emptyWorld).
  - vm_compute. reflexivity.
  - right. left. vm_compute. reflexivity.
Defined.

(** doRequest, URL parse error outside mock mode (net.go:46-58, 147-151):
    for any body that encodes and with no cache entry retrieved, [connect]
    is called and fails, the result is the allocated Response with Err set,
    nothing is sent, and the Resource Cache is unchanged. *)
Theorem doRequest_url_error env rb verb u body w :
  env.(mockUpEnv) = false -> Url.Parse (String.append rb.(BaseURL) u) = None ->
  match body with None => true | Some v => isSome (env.(marshal) rb.(ContentType) v) end = true ->
  (rb.(DisableCache) = true \/ match_ verb readVerbs = false \/
   w.(resourceCache) !! String.append rb.(BaseURL) u = None) ->
  let f := fresh (dom w.(resps)) in
  let '(res, w') := doRequest env rb verb u body w in
  res = Some f /\
  w'.(resps) = <[f := with_Err newResponse (Some "url error")]> w.(resps) /\
  w'.(resourceCache) = w.(resourceCache) /\
  w'.(trace) = EvConnect (String.append rb.(BaseURL) u) :: EvMarshal ::
                 (if negb rb.(DisableCache) && match_ verb readVerbs
                  then [EvCacheGet (String.append rb.(BaseURL) u)] else []) ++ w.(trace).
Proof.
  intros Hmock Hp Hb Hc. cbv zeta. rewrite (doRequest_miss_eq env rb verb u body w Hc).
  unfold sendRequest, marshalReqBody, log, modify, bind, ret.
  destruct body as [v|];
    [destruct (marshal env (ContentType rb) v) as [bv|] eqn:Em; [|simpl in Hb; rewrite ?Em in Hb; discriminate]|];
    cbv iota beta;
  unfold checkMockup; rewrite Hmock; cbv iota beta;
  match goal with
  | |- context [connect ?e ?r ?k ?w1] => rewrite (connect_url_error_run e r k w1 Hp)
  end;
  match goal with
  | |- context [getClientCache ?r ?w1] =>
      pose proof (getClientCache_keeps r w1) as (R & C & T);
      destruct (getClientCache r w1) as [m1 w2]
  end;
  cbn [snd set_trace resps trace resourceCache] in R, C, T;
  unfold fail, updResp, modify, bind, ret; cbn [resps set_resps resourceCache trace set_trace];
  cbn [snd]; rewrite R, C, T, alter_insert, decide_True by reflexivity; split_and!; reflexivity.
Qed.

Lemma doRequest_url_error_witness :
  let '(res, w') := doRequest (envAnswering 200 []) rbBadBase "POST" "/x" (Some "{}") emptyWorld in
  res = Some 1%positive /\
  w'.(resps) = <[1%positive := with_Err newResponse (Some "url error")]> ∅ /\
  w'.(resourceCache) = ∅ /\
  w'.(trace) = [EvConnect ":bad/x"; EvMarshal].
Proof.
  apply (doRequest_url_error (envAnswering 200 []) rbBadBase "POST" "/x" (Some "{}") emptyWorld).
  - vm_compute. reflexivity.
  - vm_compute. reflexivity.
  - vm_compute. reflexivity.
  - right. left. vm_compute. reflexivity.
Defined.

Lemma setTTL_byteBody now r : (fst (setTTL now r)).(byteBody) = r.(byteBody).
Proof. unfold setTTL. repeat case_match; reflexivity. Qed.

Lemma setLastModified_byteBody r : (fst (setLastModified r)).(byteBody) = r.(byteBody).
Proof. unfold setLastModified. repeat case_match; reflexivity. Qed.

Lemma afterResponse_resps_ne env rb verb resp cr cu hr bd w l :
  l <> resp ->
  (snd (afterResponse env rb verb resp cr cu hr bd w)).(resps) !! l = w.(resps) !! l.
Proof.
  intros Ne. unfold afterResponse. destruct (StatusCode hr =? StatusNotModified); [reflexivity|].
  unfold bind, updResp, readResp, modify, gets.
  destruct (setTTL _ _) as [r1 t]. destruct (setLastModified r1) as [r2 lm].
  destruct (setETag r2) as [r3 e].
  match goal with
  | |- context [(if ?c then resourceCacheSetNX ?k ?l0 else ?z) ?w1] =>
      pose proof (cacheSet_resps c k l0 w1) as Hc;
      destruct ((if c then resourceCacheSetNX k l0 else z) w1) as [x w2]
  end.
  unfold ret. cbn [snd resps set_resps] in Hc |- *. rewrite Hc, !lookup_alter_ne by congruence. reflexivity.
Qed.

Lemma afterResponse_fresh env rb verb resp cr cu hr bd w :
  w.(resps) !! resp = Some newResponse -> hr.(StatusCode) <> StatusNotModified ->
  exists r, (snd (afterResponse env rb verb resp cr cu hr bd w)).(resps) !! resp = Some r /\
    r.(Resp) = Some hr /\ r.(byteBody) = bd /\ r.(Err) = None.
Proof.
  intros Hr S304. unfold afterResponse.
  rewrite (proj2 (Z.eqb_neq _ _) S304).
  unfold bind, updResp, readResp, modify, gets.
  cbn [resps set_resps]. rewrite lookup_alter_eq, Hr.
  cbn [default fmap option_fmap option_map]. unfold id.
  set (r0 := with_byteBody (with_Resp newResponse (Some hr)) bd).
  pose proof (setTTL_Err (now env) r0) as Er1. pose proof (setTTL_byteBody (now env) r0) as Bb1.
  destruct (setTTL (now env) r0) as [r1 t] eqn:E1.
  destruct (setTTL_spec _ _ _ _ E1 eq_refl) as (_ & Rp1 & L1 & _ & _).
  pose proof (setLastModified_Err r1) as Er2. pose proof (setLastModified_byteBody r1) as Bb2.
  destruct (setLastModified r1) as [r2 lm] eqn:E2.
  destruct (setLastModified_spec _ _ _ E2 ltac:(rewrite L1; reflexivity)) as (_ & Rp2 & _ & _ & _).
  destruct (setETag r2) as [r3 e] eqn:E3.
  destruct (setETag_spec _ _ _ E3) as (_ & Rp3 & _ & _ & _).
  assert (Er3 : r3.(Err) = r2.(Err) /\ r3.(byteBody) = r2.(byteBody))
    by (unfold setETag in E3; injection E3 as <- _; split; reflexivity).
  simpl in Er1, Er2, Bb1, Bb2.
  match goal with
  | |- context [(if ?c then resourceCacheSetNX ?k ?l0 else ?z) ?w1] =>
      pose proof (cacheSet_resps c k l0 w1) as Hc;
      destruct ((if c then resourceCacheSetNX k l0 else z) w1) as [x w2]
  end.
  unfold ret. cbn [snd resps set_resps] in Hc |- *. rewrite Hc, !lookup_alter_eq, Hr.
  eexists; split; [reflexivity|].
  destruct Er3 as [Er3 Bb3].
  destruct (negb t && (lm || e)); cbn [Resp Err byteBody with_revalidate];
    rewrite Rp3, Rp2, Rp1, Er3, Er2, Er1, Bb3, Bb2, Bb1; split_and!; reflexivity.
Qed.

Lemma sendRequest_resps_ne env rb verb u body resp cr w l :
  l <> resp ->
  (snd (sendRequest env rb verb u body resp cr w)).(resps) !! l = w.(resps) !! l.
Proof.
  intros Ne. pose proof (sendRequest_cases env rb verb u body resp cr w) as H.
  destruct (sendRequest env rb verb u body resp cr w) as [res w'].
  destruct H as [(msg & _ & _ & Rs) | (w1 & req & h & hr & bd & [_ R] & _ & Ea)]; simpl.
  - rewrite Rs, lookup_alter_ne by congruence. reflexivity.
  - pose proof (afterResponse_resps_ne env rb verb resp cr u hr bd w1 l Ne) as A.
    rewrite Ea in A. simpl in A. rewrite A, R. reflexivity.
Qed.

Lemma sendRequest_fresh env rb verb u body resp cr w :
  w.(resps) !! resp = Some newResponse ->
  exists r, (snd (sendRequest env rb verb u body resp cr w)).(resps) !! resp = Some r /\
    (r = newResponse \/ (exists msg, r = with_Err newResponse (Some msg)) \/
     exists req h hr bd, env.(net) req h = Some (hr, Some bd) /\ hr.(StatusCode) <> StatusNotModified /\
       r.(Resp) = Some hr /\ r.(byteBody) = bd /\ r.(Err) = None).
Proof.
  intros Hr. pose proof (sendRequest_cases env rb verb u body resp cr w) as H.
  destruct (sendRequest env rb verb u body resp cr w) as [res w'].
  destruct H as [(msg & _ & _ & Rs) | (w1 & req & h & hr & bd & [_ R] & N & Ea)]; simpl.
  - rewrite Rs, lookup_alter_eq, Hr. eexists; split; [reflexivity|]. right; left. eauto.
  - assert (Hr1 : w1.(resps) !! resp = Some newResponse) by (rewrite R; exact Hr).
    destruct (decide (StatusCode hr = StatusNotModified)) as [E|E].
    + rewrite afterResponse_not_modified in Ea by exact E. injection Ea as _ <-.
      exists newResponse. split; [exact Hr1 | left; reflexivity].
    + destruct (afterResponse_fresh env rb verb resp cr u hr bd w1 Hr1 E) as (r & Lr & F).
      rewrite Ea in Lr. exists r. split; [exact Lr|]. right; right. exists req, h, hr, bd. tauto.
Qed.

(** doRequest changes no Response object other than the one it
    allocates: cached Responses are never modified. *)
Theorem doRequest_only_fresh_changes env rb verb u body w l :
  l <> fresh (dom w.(resps)) ->
  (snd (doRequest env rb verb u body w)).(resps) !! l = w.(resps) !! l.
Proof.
  intros Ne. rewrite doRequest_eq. cbv zeta.
  match goal with
  | |- context [(if ?c then resourceCacheGet ?k else ret None) ?x] =>
      pose proof (cacheGet_resps c k x) as Rw2;
      destruct ((if c then resourceCacheGet k else ret None) x) as [cr w2]
  end.
  cbn [snd resps set_resps] in Rw2.
  assert (S : forall cr', (snd (sendRequest env rb verb (String.append (BaseURL rb) u) body
                              (fresh (dom (resps w))) cr' w2)).(resps) !! l = w.(resps) !! l).
  { intros cr'. rewrite sendRequest_resps_ne by exact Ne. rewrite Rw2, lookup_insert_ne by congruence.
    reflexivity. }
  destruct cr as [l0|]; [|apply S].
  destruct (resps w2 !! l0) as [c|]; [destruct (negb (revalidate c))|]; try apply S.
  simpl. rewrite Rw2, lookup_insert_ne by congruence. reflexivity.
Qed.

Lemma doRequest_only_fresh_changes_witness :
  (snd (doRequest envEtag rb0 "GET" "/a" None (worldCached etagEntry))).(resps) !! 1%positive =
  Some etagEntry.
Proof.
  apply (doRequest_only_fresh_changes envEtag rb0 "GET" "/a" None (worldCached etagEntry) 1%positive).
  vm_compute. discriminate.
Defined.

(** doRequest leaves the Response it allocates in one of three states:
    untouched (a cache hit, or a 304), carrying only an error, or holding a
    network answer other than 304 with the body read and no error. *)
Theorem doRequest_fresh_response env rb verb u body w :
  let f := fresh (dom w.(resps)) in
  exists r, (snd (doRequest env rb verb u body w)).(resps) !! f = Some r /\
    (r = newResponse \/ (exists msg, r = with_Err newResponse (Some msg)) \/
     exists req h hr bd, env.(net) req h = Some (hr, Some bd) /\ hr.(StatusCode) <> StatusNotModified /\
       r.(Resp) = Some hr /\ r.(byteBody) = bd /\ r.(Err) = None).
Proof.
  cbv zeta. rewrite doRequest_eq. cbv zeta.
  match goal with
  | |- context [(if ?c then resourceCacheGet ?k else ret None) ?x] =>
      pose proof (cacheGet_resps c k x) as Rw2;
      destruct ((if c then resourceCacheGet k else ret None) x) as [cr w2]
  end.
  cbn [snd resps set_resps] in Rw2.
  assert (Hf : w2.(resps) !! fresh (dom (resps w)) = Some newResponse)
    by (rewrite Rw2; apply lookup_insert_eq).
  destruct cr as [l0|]; [|apply sendRequest_fresh, Hf].
  destruct (resps w2 !! l0) as [c|]; [destruct (negb (revalidate c))|]; try (apply sendRequest_fresh, Hf).
  simpl. exists newResponse. split; [exact Hf | left; reflexivity].
Qed.
